(** * Vim segments of powerline: caches and listers

    A shallow embedding of [powerline/segments/vim.py]: the two caches
    ([window_cached], [trailing_whitespace]), the context derivation and the
    listers ([tablister], [bufferlister], [tabbuflister]) and the leaf
    segments [mode], [file_name] and [line_percent].

    Python dictionaries are finite maps, a dictionary that is copied and then
    updated lives in a store of dictionaries, exceptions are values of
    [result], Python floats are binary64 floats, and the module's global
    cache together with the log of the accesses made to the buffer is the
    state that the stateful segments thread. *)

From Stdlib Require Import ZArith String Ascii List Bool Lia Sorted.
From Stdlib Require Import PrimFloat FloatOps SpecFloat DecimalString Uint63.
From stdpp Require Import base option list gmap strings.

Set Warnings "-inexact-float".
Local Open Scope string_scope.
Local Open Scope Z_scope.
Local Open Scope list_scope.

(** ** Python values the module relies on *)

(** The file runs under both major versions of the interpreter (it falls back
    from [__builtin__.xrange], and one handler is marked as reachable in
    Python 3 only); the results of [str] and of [round] depend on which. *)
Inductive PyVersion := Py2 | Py3.

Inductive exn :=
| KeyError | TypeError | AttributeError | IndexError | UnboundLocalError
| ZeroDivisionError | OverflowError | ValueError.

Inductive result (A : Type) :=
| Ok (a : A)
| Raise (e : exn).
Arguments Ok {A} a.
Arguments Raise {A} e.

Global Instance result_ret : MRet result := fun _ a => Ok a.
Global Instance result_bind : MBind result := fun _ _ k r =>
  match r with Ok a => k a | Raise e => Raise e end.
Global Instance result_fmap : FMap result := fun _ _ f r =>
  match r with Ok a => Ok (f a) | Raise e => Raise e end.

Module Py.

Definition chars (s : string) : list ascii := list_ascii_of_string s.

(** [s[-1]] for a string; [None] stands for the empty string, on which
    the index is out of range. *)
Definition last_char (s : string) : option ascii := last (chars s).

(** [c in s] for a one-character [c] (in Python 3, an integer [c] and a
    bytes object [s]). *)
Definition char_in (c : ascii) (s : string) : bool :=
  existsb (Ascii.eqb c) (chars s).

(** [x in s] for two byte strings: [x] occurs in [s] as a run of
    consecutive bytes. *)
Fixpoint starts_with (x s : list ascii) : bool :=
  match x, s with
  | [], _ => true
  | _ :: _, [] => false
  | a :: x', b :: s' => Ascii.eqb a b && starts_with x' s'
  end.
Fixpoint occurs_in (x s : list ascii) : bool :=
  starts_with x s
  || match s with
     | [] => false
     | _ :: s' => occurs_in x s'
     end.
Definition bytes_in (x s : string) : bool := occurs_in (chars x) (chars s).

Definition squote : ascii := Ascii.ascii_of_nat 39.
Definition dquote : ascii := Ascii.ascii_of_nat 34.
Definition backslash : ascii := Ascii.ascii_of_nat 92.

Definition hex_digit (n : nat) : ascii :=
  nth n (chars "0123456789abcdef") "0"%char.

(** The escape of one byte in the [repr] of a bytes object. *)
Definition repr_byte (q c : ascii) : list ascii :=
  let n := Ascii.nat_of_ascii c in
  if Ascii.eqb c backslash then [backslash; backslash]
  else if Ascii.eqb c q then [backslash; q]
  else if Nat.eqb n 9 then [backslash; "t"%char]
  else if Nat.eqb n 10 then [backslash; "n"%char]
  else if Nat.eqb n 13 then [backslash; "r"%char]
  else if (Nat.ltb n 32 || Nat.leb 127 n)%bool
    then [backslash; "x"%char; hex_digit (n / 16); hex_digit (n mod 16)]
  else [c].

(** [repr(b)] for bytes [b] in Python 3: the [b] prefix, a quote (double
    only when the bytes hold a single quote and no double one) and the
    escaped bytes. *)
Definition repr_bytes (b : string) : string :=
  let q := if (char_in squote b && negb (char_in dquote b))%bool
           then dquote else squote in
  string_of_list_ascii
    ("b"%char :: q :: flat_map (repr_byte q) (chars b) ++ [q]).

(** [str(b)] for a bytes literal [b]: the bytes themselves in Python 2,
    where [str] is the bytes type, and their [repr] in Python 3. *)
Definition str_of_bytes (v : PyVersion) (b : string) : string :=
  match v with Py2 => b | Py3 => repr_bytes b end.

(** [str(n)] for an integer. *)
Definition str_of_int (n : Z) : string :=
  NilZero.string_of_int (Z.to_int n).

(** [float(n)] for an integer: the nearest binary64 value. The integers
    converted in this module are numbers of lines, tab pages and buffers,
    which the editor holds in machine integers; Python raises
    [OverflowError] only from [2 ^ 1024] on, where this function gives an
    infinity. *)
Definition float_of_int (n : Z) : float :=
  SF2Prim (binary_normalize prec emax n 0 false).

(** [int(round(x))]. Python 2 rounds halves away from zero and Python 3 to
    the even neighbour; a NaN is a [ValueError] and an infinity an
    [OverflowError] in both. *)
Definition int_round (v : PyVersion) (x : float) : result Z :=
  match Prim2SF x with
  | S754_zero _ => Ok 0
  | S754_infinity _ => Raise OverflowError
  | S754_nan => Raise ValueError
  | S754_finite s m e =>
      let mag :=
        if (0 <=? e) then Z.pos m * 2 ^ e
        else
          let d := 2 ^ (- e) in
          let q := Z.pos m / d in
          let r := Z.pos m mod d in
          match (2 * r ?= d) with
          | Lt => q
          | Gt => q + 1
          | Eq => match v with
                  | Py2 => q + 1
                  | Py3 => if Z.even q then q else q + 1
                  end
          end in
      Ok (if s then - mag else mag)
  end.

End Py.

(** ** Fragment values *)

(** A dictionary of a returned list: [contents] and [highlight_group] are
    always set, the other two keys only by some segments. *)
Record SegmentPart := {
  contents : string;
  highlight_group : list string;
  divider_highlight_group : option string;
  gradient_level : option float;
}.

(** What a segment returns: [None], a string, or a list of dictionaries. *)
Inductive fragment :=
| Absent
| Text (s : string)
| Parts (ps : list SegmentPart).

(** ** The editor's objects *)

(** What [buf[i]] gives: the line, or [UnicodeDecodeError]. For a line that
    does not decode the handler asks the editor again, and both answers are
    kept here: the List of byte strings that
    [vim.bindeval('getbufline(bufnr, i + 1)')] returns, and the string that
    [vim.eval('strtrans(getbufline(bufnr, i + 1))')] returns (a [str], which
    is text under Python 3). *)
Inductive line_read :=
| Decoded (line : string)
| Undecodable (via_bindeval : list string) (via_eval : string).

Record buffer := {
  buf_number : Z;
  buf_lines : list line_read;
}.

Record window := {
  win_number : Z;
  win_buffer : buffer;
  win_vars : gmap string Z;
  win_cursor : Z * Z;
}.

Record tabpage := {
  tab_number : Z;
  tab_window : window;
}.

Global Instance line_read_eq_dec : EqDecision line_read.
Proof. solve_decision. Defined.
Global Instance buffer_eq_dec : EqDecision buffer.
Proof. solve_decision. Defined.
Global Instance window_eq_dec : EqDecision window.
Proof. solve_decision. Defined.
Global Instance tabpage_eq_dec : EqDecision tabpage.
Proof. solve_decision. Defined.

(** The values held by a [segment_info] dictionary. *)
Inductive value :=
| VNone
| VInt (n : Z)
| VStr (s : string)
| VBuffer (b : buffer)
| VWindow (w : window)
| VTabpage (t : tabpage).

Global Instance value_eq_dec : EqDecision value.
Proof. solve_decision. Defined.

(** Values are dictionary keys ([window_id] and [bufnr] index the caches). *)
Global Instance line_read_countable : Countable line_read.
Proof.
  refine (inj_countable'
            (fun l => match l with
                      | Decoded s => inl s
                      | Undecodable a b => inr (a, b)
                      end)
            (fun s => match s with
                      | inl s => Decoded s
                      | inr p => Undecodable p.1 p.2
                      end) _).
  by intros [].
Defined.
Global Instance buffer_countable : Countable buffer.
Proof.
  refine (inj_countable' (fun b => (buf_number b, buf_lines b))
            (fun p => {| buf_number := p.1; buf_lines := p.2 |}) _).
  by intros [].
Defined.
Global Instance window_countable : Countable window.
Proof.
  refine (inj_countable'
            (fun w => (win_number w, win_buffer w, win_vars w, win_cursor w))
            (fun p => {| win_number := p.1.1.1; win_buffer := p.1.1.2;
                         win_vars := p.1.2; win_cursor := p.2 |}) _).
  by intros [].
Defined.
Global Instance tabpage_countable : Countable tabpage.
Proof.
  refine (inj_countable' (fun t => (tab_number t, tab_window t))
            (fun p => {| tab_number := p.1; tab_window := p.2 |}) _).
  by intros [].
Defined.
Global Instance value_countable : Countable value.
Proof.
  refine (inj_countable'
            (fun x => match x with
                      | VNone => inl (inl ())
                      | VInt n => inl (inr n)
                      | VStr s => inr (inl s)
                      | VBuffer b => inr (inr (inl b))
                      | VWindow w => inr (inr (inr (inl w)))
                      | VTabpage t => inr (inr (inr (inr t)))
                      end)
            (fun s => match s with
                      | inl (inl _) => VNone
                      | inl (inr n) => VInt n
                      | inr (inl s) => VStr s
                      | inr (inr (inl b)) => VBuffer b
                      | inr (inr (inr (inl w))) => VWindow w
                      | inr (inr (inr (inr t))) => VTabpage t
                      end) _).
  by intros [].
Defined.

(** What the segments ask the editor, as one snapshot per call. *)
Record Vim := {
  has_bindeval : bool;                  (* hasattr(vim, 'bindeval') *)
  getbufvar_changedtick : value -> Z;   (* getbufvar(bufnr, 'changedtick') *)
  list_tabpages : list tabpage;         (* list_tabpages() *)
  current_tabpage : tabpage;            (* current_tabpage() *)
  vim_buffers : list buffer;            (* vim.buffers *)
  vim_current_buffer : buffer;          (* vim.current.buffer *)
}.

(** ** Module state *)

(** The accesses a segment makes to a buffer object: [len(buf)] and
    [buf[i]], with the number of the buffer. *)
Inductive event :=
| EvLen (bufnr : value)
| EvItem (bufnr : value) (i : nat).

Global Instance event_eq_dec : EqDecision event.
Proof. solve_decision. Defined.

(** The global [trailing_whitespace_cache] ([None] until the first call) and
    the accesses made to buffers so far. *)
Record state := {
  trailing_whitespace_cache : option (gmap value (Z * fragment));
  buffer_log : list event;
}.

(** [d[k]] on a [defaultdict(lambda: (0, None))]: a missing key is given the
    default entry, which is stored. *)
Definition defaultdict_getitem (d : gmap value (Z * fragment)) (k : value)
  : (Z * fragment) * gmap value (Z * fragment) :=
  match d !! k with
  | Some e => (e, d)
  | None => ((0, Absent), <[k := (0, Absent)]> d)
  end.

(** ** trailing_whitespace *)

Module TrailingWhitespace.

(** [bws = b' \t'] and [sws = str(bws)]. *)
Definition bws : string :=
  String " "%char (String (Ascii.ascii_of_nat 9) EmptyString).
Definition sws (v : PyVersion) : string := Py.str_of_bytes v bws.

(** The body of the [try] statement for one line: the value given to
    [has_trailing_ws], as its truth value, or the exception of the handler.
    A line that decodes is tested by [line and line[-1] in sws]. For one
    that does not, [line] is the editor's answer and the test is
    [line[-1] in bws]: with [bindeval] the last item of the List, a byte
    string, is looked for in [bws]; without it the last character of the
    string is, which under Python 3 is text and cannot be looked for in
    bytes. An empty answer has no last item. *)
Definition has_trailing_ws (v : PyVersion) (bindeval : bool) (l : line_read)
  : result bool :=
  match l with
  | Decoded line =>
      match Py.last_char line with
      | None => Ok false
      | Some c => Ok (Py.char_in c (sws v))
      end
  | Undecodable via_bindeval via_eval =>
      if bindeval then
        match last via_bindeval with
        | None => Raise IndexError
        | Some item => Ok (Py.bytes_in item bws)
        end
      else
        match Py.last_char via_eval with
        | None => Raise IndexError
        | Some c =>
            match v with
            | Py2 => Ok (Py.char_in c bws)
            | Py3 => Raise TypeError
            end
        end
  end.

(** The locals [i] and [has_trailing_ws], unbound before the first turn of
    the loop. *)
Definition loop_vars : Type := option (nat * bool).

(** [for i in range(len(buf))] from index [i] on, over the lines that are
    left; a flagged line ends the loop, and so does an exception. *)
Fixpoint scan_loop (v : PyVersion) (bindeval : bool) (bufnr : value)
    (rest : list line_read) (i : nat) (vars : loop_vars) (log : list event)
  : result loop_vars * list event :=
  match rest with
  | [] => (Ok vars, log)
  | l :: rest' =>
      let log' := log ++ [EvItem bufnr i] in
      match has_trailing_ws v bindeval l with
      | Raise e => (Raise e, log')
      | Ok h =>
          if h then (Ok (Some (i, h)), log')
          else scan_loop v bindeval bufnr rest' (S i) (Some (i, h)) log'
      end
  end.

(** The loop and the statement after it, which reads [has_trailing_ws]
    and fails when no turn of the loop has bound it. *)
Definition scan (v : PyVersion) (bindeval : bool) (bufnr : value)
    (buf : buffer) (log : list event) : result fragment * list event :=
  let '(vars, log') :=
    scan_loop v bindeval bufnr (buf_lines buf) 0 None (log ++ [EvLen bufnr]) in
  match vars with
  | Raise e => (Raise e, log')
  | Ok None => (Raise UnboundLocalError, log')
  | Ok (Some (i, true)) =>
      (Ok (Parts [{| contents := Py.str_of_int (Z.of_nat i + 1);
                     highlight_group := ["trailing_whitespace"; "warning"];
                     divider_highlight_group := None;
                     gradient_level := None |}]), log')
  | Ok (Some (i, false)) => (Ok Absent, log')
  end.

(** The cache as the call finds it: created on the first call. *)
Definition the_cache (st : state) : gmap value (Z * fragment) :=
  default ∅ (trailing_whitespace_cache st).

Definition trailing_whitespace (v : PyVersion) (vim : Vim)
    (segment_info : gmap string value) (st : state)
  : result fragment * state :=
  let cache := the_cache st in
  let log := buffer_log st in
  match segment_info !! "bufnr" with
  | None =>
      (Raise KeyError,
       {| trailing_whitespace_cache := Some cache; buffer_log := log |})
  | Some bufnr =>
      let changedtick := getbufvar_changedtick vim bufnr in
      let '(entry, cache) := defaultdict_getitem cache bufnr in
      if entry.1 =? changedtick then
        (Ok entry.2,
         {| trailing_whitespace_cache := Some cache; buffer_log := log |})
      else
        match segment_info !! "buffer" with
        | None =>
            (Raise KeyError,
             {| trailing_whitespace_cache := Some cache; buffer_log := log |})
        | Some (VBuffer buf) =>
            match scan v (has_bindeval vim) bufnr buf log with
            | (Ok ret, log') =>
                (Ok ret,
                 {| trailing_whitespace_cache :=
                      Some (<[bufnr := (changedtick, ret)]> cache);
                    buffer_log := log' |})
            | (Raise e, log') =>
                (Raise e,
                 {| trailing_whitespace_cache := Some cache;
                    buffer_log := log' |})
            end
        | Some _ =>
            (* the field holds a buffer object, nothing else has lines *)
            (Raise TypeError,
             {| trailing_whitespace_cache := Some cache; buffer_log := log |})
        end
  end.

(** How many times the buffer has been scanned: every scan asks for the
    length of the buffer once, and nothing else does. *)
Definition is_len (e : event) : bool :=
  match e with EvLen _ => true | EvItem _ _ => false end.
Definition scans (log : list event) : nat :=
  length (List.filter is_len log).

End TrailingWhitespace.

(** ** window_cached *)

Section WindowCached.

(** The keyword arguments of the wrapped function and the part of the
    world it may read and change. *)
Context {K W : Type}.

(** The function that the decorator wraps. *)
Variable func : K -> W -> result fragment * W.

(** [window_cached(func)]: the function [ret], with the dictionary [cache]
    of its closure passed in and out. *)
Definition window_cached (cache : gmap value fragment)
    (segment_info : gmap string value) (kwargs : K) (w : W)
  : result fragment * gmap value fragment * W :=
  match segment_info !! "window_id" with
  | None => (Raise KeyError, cache, w)
  | Some window_id =>
      match segment_info !! "mode" with
      | None => (Raise KeyError, cache, w)
      | Some m =>
          if decide (m = VStr "nc") then
            (Ok (default Absent (cache !! window_id)), cache, w)
          else
            match func kwargs w with
            | (Ok r, w') => (Ok r, <[window_id := r]> cache, w')
            | (Raise e, w') => (Raise e, cache, w')
            end
      end
  end.

(** A sequence of calls, each with its context and keyword arguments; the
    values returned are dropped. *)
Fixpoint window_cached_calls (cache : gmap value fragment)
    (calls : list (gmap string value * K)) (w : W)
  : gmap value fragment * W :=
  match calls with
  | [] => (cache, w)
  | (segment_info, kwargs) :: rest =>
      let '(_, cache', w') := window_cached cache segment_info kwargs w in
      window_cached_calls cache' rest w'
  end.

End WindowCached.

(** The wrapped function together with a count of its invocations. *)
Definition counting {K W : Type} (func : K -> W -> result fragment * W)
  : K -> nat * W -> result fragment * (nat * W) :=
  fun kwargs nw =>
    let '(r, w') := func kwargs nw.2 in (r, (S nw.1, w')).

(** ** mode *)

Definition vim_modes : gmap string string :=
  list_to_map
    [ ("n", "NORMAL"); ("no", "N·OPER"); ("v", "VISUAL"); ("V", "V·LINE");
      ("^V", "V·BLCK"); ("s", "SELECT"); ("S", "S·LINE"); ("^S", "S·BLCK");
      ("i", "INSERT"); ("R", "REPLACE"); ("Rv", "V·RPLCE"); ("c", "COMMND");
      ("cv", "VIM EX"); ("ce", "EX"); ("r", "PROMPT"); ("rm", "MORE");
      ("r?", "CONFIRM"); ("!", "SHELL") ].

(** [d[k]] for a dictionary of strings and any key. *)
Definition getitem (d : gmap string string) (k : value) : result string :=
  match k with
  | VStr s => match d !! s with Some t => Ok t | None => Raise KeyError end
  | _ => Raise KeyError
  end.

(** [override] is [None] or a dictionary; both [None] and the empty
    dictionary are false. *)
Definition mode (segment_info : gmap string value)
    (override : option (gmap string string)) : result fragment :=
  match segment_info !! "mode" with
  | None => Raise KeyError
  | Some mode =>
      if decide (mode = VStr "nc") then Ok Absent
      else
        match override with
        | None => Text <$> getitem vim_modes mode
        | Some o =>
            if decide (o = ∅) then Text <$> getitem vim_modes mode
            else
              match getitem o mode with
              | Ok s => Ok (Text s)
              | Raise KeyError => Text <$> getitem vim_modes mode
              | Raise e => Raise e
              end
        end
  end.

(** ** file_name *)

Module OsPath.

(** The characters after the last slash, with [acc] the characters seen
    since the last one. *)
Fixpoint after_last_slash (acc : list ascii) (p : list ascii) : list ascii :=
  match p with
  | [] => rev acc
  | c :: p' =>
      if Ascii.eqb c "/"%char then after_last_slash [] p'
      else after_last_slash (c :: acc) p'
  end.

(** [os.path.basename]: [p[p.rfind('/') + 1:]]. *)
Definition basename (p : string) : string :=
  string_of_list_ascii (after_last_slash [] (Py.chars p)).

End OsPath.

Section FileName.

(** [buffer_name] of [powerline.bindings.vim], applied to whatever the
    context holds as its buffer: a name, or [None]. *)
Variable buffer_name : value -> result (option string).

(** [name.decode('utf-8', 'powerline_vim_strtrans_error')], whose error
    handler is registered by the bindings. *)
Variable decode : string -> result string.

Definition display_no_file_default : bool := false.
Definition no_file_text_default : string := "[No file]".

(** The segment reads its context and touches nothing of the module's
    state, which it hands back as it got it. *)
Definition file_name (segment_info : gmap string value)
    (display_no_file : bool) (no_file_text : string) (st : state)
  : result fragment * state :=
  match segment_info !! "buffer" with
  | None => (Raise KeyError, st)
  | Some b =>
      match buffer_name b with
      | Raise e => (Raise e, st)
      | Ok name =>
          match name with
          | None | Some EmptyString =>
              if display_no_file then
                (Ok (Parts [{| contents := no_file_text;
                               highlight_group :=
                                 ["file_name_no_file"; "file_name"];
                               divider_highlight_group := None;
                               gradient_level := None |}]), st)
              else (Ok Absent, st)
          | Some name => (Text <$> decode (OsPath.basename name), st)
          end
      end
  end.

End FileName.

(** ** line_percent *)

Definition line_percent (v : PyVersion) (segment_info : gmap string value)
    (gradient : bool) : result fragment :=
  match segment_info !! "window" with
  | None => Raise KeyError
  | Some (VWindow window) =>
      let line_current := (win_cursor window).1 in
      match segment_info !! "buffer" with
      | None => Raise KeyError
      | Some (VBuffer buffer) =>
          let line_last := Z.of_nat (length (buf_lines buffer)) in
          if line_last =? 0 then Raise ZeroDivisionError
          else
            let percentage :=
              PrimFloat.div
                (PrimFloat.mul (Py.float_of_int line_current) 100%float)
                (Py.float_of_int line_last) in
            n ← Py.int_round v percentage;
            if negb gradient then Ok (Text (Py.str_of_int n))
            else
              Ok (Parts [{| contents := Py.str_of_int n;
                            highlight_group :=
                              ["line_percent_gradient"; "line_percent"];
                            divider_highlight_group := None;
                            gradient_level := Some percentage |}])
      | Some _ => Raise TypeError
      end
  | Some _ => Raise AttributeError
  end.

(** ** Contexts and listers *)

(** A [segment_info] dictionary is an object: the listers copy it and update
    the copy. The store maps references to the dictionaries they denote. *)
Abbreviation dict := (gmap string value) (only parsing).
Abbreviation store := (gmap nat (gmap string value)) (only parsing).

(** [d.copy()]: a new dictionary with the same items. [None] when the
    reference denotes nothing, which no Python value does. *)
Definition dict_copy (h : store) (l : nat) : option (store * nat) :=
  d ← h !! l;
  let l' := fresh (dom h) in
  Some (<[l' := d]> h, l').

(** [d.update(k1=v1, ...)]: the items are set in the dictionary that [l]
    denotes. *)
Definition set_items (kvs : list (string * value)) (d : dict) : dict :=
  foldl (fun d kv => <[kv.1 := kv.2]> d) d kvs.
Definition dict_update (h : store) (l : nat) (kvs : list (string * value))
  : store :=
  alter (set_items kvs) l h.
Global Arguments set_items : simpl never.

(** The keyword arguments of the [update] call for a tab page. *)
Definition tabpage_items (tabpage : tabpage) : list (string * value) :=
  let window := tab_window tabpage in
  let buffer := win_buffer window in
  [ ("tabpage", VTabpage tabpage);
    ("tabnr", VInt (tab_number tabpage));
    ("window", VWindow window);
    ("winnr", VInt (win_number window));
    ("window_id",
      VInt (default (-1) (win_vars window !! "powerline_window_id")));
    ("buffer", VBuffer buffer);
    ("bufnr", VInt (buf_number buffer)) ].

Definition tabpage_updated_segment_info (h : store) (segment_info : nat)
    (tabpage : tabpage) : option (store * nat) :=
  '(h, segment_info) ← dict_copy h segment_info;
  Some (dict_update h segment_info (tabpage_items tabpage), segment_info).

(** The keyword arguments of the [update] call for a buffer. *)
Definition buffer_items (buffer : buffer) : list (string * value) :=
  [ ("window", VNone);
    ("winnr", VNone);
    ("window_id", VNone);
    ("buffer", VBuffer buffer);
    ("bufnr", VInt (buf_number buffer)) ].

Definition buffer_updated_segment_info (h : store) (segment_info : nat)
    (buffer : buffer) : option (store * nat) :=
  '(h, segment_info) ← dict_copy h segment_info;
  Some (dict_update h segment_info (buffer_items buffer), segment_info).

(** The second component of a listed pair: the dictionary with the keys
    [mode] and [priority_multiplier]. *)
Record override := {
  ov_mode : string;
  priority_multiplier : float;
}.

(** [1 + (0.001 * abs(number - cur_number))], in floating point. *)
Definition multiplier (number cur_number : Z) : float :=
  PrimFloat.add 1%float
    (PrimFloat.mul 0.001%float (Py.float_of_int (Z.abs (number - cur_number)))).

(** [add_multiplier] of [tablister], applied to the dictionary that holds
    [mode] alone. *)
Definition tab_override (cur_tabpage : tabpage) (tabpage : tabpage) : override :=
  {| ov_mode := if decide (tabpage = cur_tabpage) then "tab" else "nc";
     priority_multiplier :=
       multiplier (tab_number tabpage) (tab_number cur_tabpage) |}.

(** The list comprehension of [tablister]: for each tab page in turn, the
    derived context and then the override. *)
Fixpoint tablister_pairs (h : store) (segment_info : nat)
    (cur_tabpage : tabpage) (tabpages : list tabpage)
  : option (store * list (nat * override)) :=
  match tabpages with
  | [] => Some (h, [])
  | tabpage :: rest =>
      '(h, c) ← tabpage_updated_segment_info h segment_info tabpage;
      let o := tab_override cur_tabpage tabpage in
      '(h, pairs) ← tablister_pairs h segment_info cur_tabpage rest;
      Some (h, (c, o) :: pairs)
  end.

Definition tablister (vim : Vim) (h : store) (segment_info : nat)
  : option (store * list (nat * override)) :=
  tablister_pairs h segment_info (current_tabpage vim) (list_tabpages vim).

(** [add_multiplier] of [bufferlister]; the mode written for the current
    buffer is the string ['tab']. *)
Definition buf_override (cur_buffer : buffer) (buffer : buffer) : override :=
  {| ov_mode := if decide (buffer = cur_buffer) then "tab" else "nc";
     priority_multiplier :=
       multiplier (buf_number buffer) (buf_number cur_buffer) |}.

Fixpoint bufferlister_pairs (h : store) (segment_info : nat)
    (cur_buffer : buffer) (buffers : list buffer)
  : option (store * list (nat * override)) :=
  match buffers with
  | [] => Some (h, [])
  | buffer :: rest =>
      '(h, c) ← buffer_updated_segment_info h segment_info buffer;
      let o := buf_override cur_buffer buffer in
      '(h, pairs) ← bufferlister_pairs h segment_info cur_buffer rest;
      Some (h, (c, o) :: pairs)
  end.

Definition bufferlister (vim : Vim) (h : store) (segment_info : nat)
  : option (store * list (nat * override)) :=
  bufferlister_pairs h segment_info (vim_current_buffer vim) (vim_buffers vim).

Definition tabbuflister (vim : Vim) (h : store) (segment_info : nat)
  : option (store * list (nat * override)) :=
  if decide (length (list_tabpages vim) = 1%nat) then bufferlister vim h segment_info
  else tablister vim h segment_info.

(** ** Vocabulary of the statements *)

(** What [tablister] promises of the pair listed for tab page [T], in the
    store [h'] it leaves. *)
Definition listed_for (cur : tabpage) (h' : gmap nat (gmap string value))
    (T : tabpage) (p : nat * override) : Prop :=
  priority_multiplier p.2 =
    PrimFloat.add 1%float
      (PrimFloat.mul 0.001%float
         (Py.float_of_int (Z.abs (tab_number T - tab_number cur))))
  /\ ov_mode p.2 = (if decide (T = cur) then "tab" else "nc")
  /\ exists d' : gmap string value,
       h' !! p.1 = Some d'
       /\ d' !! "tabpage" = Some (VTabpage T)
       /\ d' !! "tabnr" = Some (VInt (tab_number T)).

(** A sequence of calls of [trailing_whitespace], each with the editor as it
    is at the call and the context of the call; the state is threaded and
    the values returned are collected. *)
Fixpoint trailing_whitespace_calls (v : PyVersion)
    (calls : list (Vim * gmap string value)) (st : state)
  : list (result fragment) * state :=
  match calls with
  | [] => ([], st)
  | (vim, segment_info) :: rest =>
      let '(r, st') :=
        TrailingWhitespace.trailing_whitespace v vim segment_info st in
      let '(rs, st'') := trailing_whitespace_calls v rest st' in
      (r :: rs, st'')
  end.

(** The entry that the cache gives for buffer [k]: the stored one, or the
    default of the [defaultdict]. *)
Definition entry_of (st : state) (k : value) : Z * fragment :=
  default (0, Absent) (TrailingWhitespace.the_cache st !! k).

(** The counters that the editor reports for buffer [k] at each call. *)
Definition counters (k : value) (calls : list (Vim * gmap string value))
  : list Z :=
  map (fun call => getbufvar_changedtick call.1 k) calls.

(** How many counters of a sequence differ from the one before them, [prev]
    being the one before the first. *)
Fixpoint changes (prev : Z) (ticks : list Z) : nat :=
  match ticks with
  | [] => 0
  | t :: rest =>
      if t =? prev then changes t rest else S (changes t rest)
  end.

(** The test of a line gives a truth value: it raises nothing. Every line
    that decodes is such a line. *)
Definition test_returns (v : PyVersion) (bindeval : bool) (l : line_read)
  : Prop :=
  match TrailingWhitespace.has_trailing_ws v bindeval l with
  | Ok _ => True
  | Raise _ => False
  end.

(** A call for buffer [k] whose context holds a buffer with a line, the
    test raising on none of its lines. *)
Definition call_for (v : PyVersion) (k : value)
    (call : Vim * gmap string value) : Prop :=
  call.2 !! "bufnr" = Some k
  /\ exists buf : buffer,
       call.2 !! "buffer" = Some (VBuffer buf)
       /\ buf_lines buf <> []
       /\ Forall (test_returns v (has_bindeval call.1)) (buf_lines buf).

(** ** Concrete editors and contexts *)

Module Examples.

Definition tab_char : string := String (Ascii.ascii_of_nat 9) EmptyString.

(** A buffer with the given number and lines. *)
Definition mkbuf (n : Z) (lines : list line_read) : buffer :=
  {| buf_number := n; buf_lines := lines |}.

(** A window that shows buffer [n], with the cursor on [line]; its
    [powerline_window_id] is [id]. *)
Definition mkwin (n : Z) (lines : list line_read) (line id : Z) : window :=
  {| win_number := 1; win_buffer := mkbuf n lines;
     win_vars := <["powerline_window_id" := id]> ∅;
     win_cursor := (line, 0) |}.

Definition mktab (n : Z) : tabpage :=
  {| tab_number := n; tab_window := mkwin n [Decoded "text"] 1 (10 + n) |}.

(** The context of a window on line 50 of a buffer of a hundred lines. *)
Definition hundred_lines : list line_read := replicate 100 (Decoded "text").
Definition line50 : gmap string value :=
  <["window" := VWindow (mkwin 1 hundred_lines 50 11)]>
    (<["buffer" := VBuffer (mkbuf 1 hundred_lines)]>
       (<["mode" := VStr "n"]> ∅)).

(** A [buffer_name] for buffers that have no name. *)
Definition no_name : value -> result (option string) := fun _ => Ok None.

(** A store with one context, at reference 0. *)
Definition base_context : gmap string value :=
  <["mode" := VStr "n"]> (<["tabnr" := VInt 7]> ∅).
Definition one_context : gmap nat (gmap string value) :=
  <[0%nat := base_context]> ∅.

(** Three tab pages with the second one current, and three buffers with
    the first one current. *)
Definition three_tabs : Vim :=
  {| has_bindeval := true;
     getbufvar_changedtick := fun _ => 1;
     list_tabpages := [mktab 1; mktab 2; mktab 3];
     current_tabpage := mktab 2;
     vim_buffers := [mkbuf 1 [Decoded "text"]; mkbuf 2 [Decoded "text"];
                     mkbuf 3 [Decoded "text"]];
     vim_current_buffer := mkbuf 1 [Decoded "text"] |}.

(** The same buffers under a single tab page. *)
Definition one_tab : Vim :=
  {| has_bindeval := true;
     getbufvar_changedtick := fun _ => 1;
     list_tabpages := [mktab 1];
     current_tabpage := mktab 1;
     vim_buffers := [mkbuf 1 [Decoded "text"]; mkbuf 2 [Decoded "text"];
                     mkbuf 3 [Decoded "text"]];
     vim_current_buffer := mkbuf 1 [Decoded "text"] |}.

(** A wrapped function that returns its keyword argument as text. *)
Definition echo : string -> unit -> result fragment * unit :=
  fun kwargs w => (Ok (Text kwargs), w).

(** The contexts of window 11, focused and not. *)
Definition focused : gmap string value :=
  <["window_id" := VInt 11]> (<["mode" := VStr "n"]> ∅).
Definition not_focused : gmap string value :=
  <["window_id" := VInt 11]> (<["mode" := VStr "nc"]> ∅).

(** A context of window 11 that has no mode. *)
Definition without_mode : gmap string value :=
  <["window_id" := VInt 11]> ∅.

(** A focused context of another window. *)
Definition focused_elsewhere : gmap string value :=
  <["window_id" := VInt 12]> (<["mode" := VStr "n"]> ∅).

(** The editor when the counter of every buffer is [t]. *)
Definition at_tick (t : Z) : Vim :=
  {| has_bindeval := true;
     getbufvar_changedtick := fun _ => t;
     list_tabpages := [mktab 1];
     current_tabpage := mktab 1;
     vim_buffers := [mkbuf 1 [Decoded "x "]];
     vim_current_buffer := mkbuf 1 [Decoded "x "] |}.

(** The context of buffer 1, whose only line ends in a space. *)
Definition buffer1 : gmap string value :=
  <["bufnr" := VInt 1]> (<["buffer" := VBuffer (mkbuf 1 [Decoded "x "])]> ∅).

(** Calls for buffer 1 while its counter is 1, 1 and then 2, and while it
    is 1, 2 and then 1 again. *)
Definition calls_1_1_2 : list (Vim * gmap string value) :=
  [(at_tick 1, buffer1); (at_tick 1, buffer1); (at_tick 2, buffer1)].
Definition calls_1_2_1 : list (Vim * gmap string value) :=
  [(at_tick 1, buffer1); (at_tick 2, buffer1); (at_tick 1, buffer1)].

(** A line that does not decode: the byte 255, the letter a and a space.
    The editor answers with the List of this one byte string, and with its
    transliteration as a string. *)
Definition undecodable_line : line_read :=
  Undecodable [String (Ascii.ascii_of_nat 255) "a "] "<ff>a ".

(** The context of buffer 1 when it holds this line alone, and the editor
    without [bindeval]. *)
Definition undecodable1 : gmap string value :=
  <["bufnr" := VInt 1]>
    (<["buffer" := VBuffer (mkbuf 1 [undecodable_line])]> ∅).
Definition without_bindeval (t : Z) : Vim :=
  {| has_bindeval := false;
     getbufvar_changedtick := fun _ => t;
     list_tabpages := [mktab 1];
     current_tabpage := mktab 1;
     vim_buffers := [mkbuf 1 [undecodable_line]];
     vim_current_buffer := mkbuf 1 [undecodable_line] |}.

(** A buffer whose third line is the first to end in white space. *)
Definition four_lines : buffer :=
  mkbuf 1 [Decoded "abc"; Decoded ""; Decoded "x "; Decoded "y "].

Definition fresh_state : state :=
  {| trailing_whitespace_cache := None; buffer_log := [] |}.

End Examples.

(** ** Further segments *)

(** The editor functions of [vim_funcs] that the segments below call, and
    the [&modified] option as [getbufvar] gives it ([None] for the empty
    string of a buffer that does not exist). *)
Record VimFuncs := {
  getpos : string -> Z * Z * Z * Z;            (* [bufnum, lnum, col, off] *)
  virtcol : Z * Z * Z -> Z;                    (* virtcol([lnum, col, off]) *)
  bufnr_last : Z;                              (* bufnr('$') *)
  getbufvar_modified : Z -> option Z;          (* getbufvar(n, '&modified') *)
}.

(** [tabnr]. [str_of_object] is [str] on the values that are not integers,
    strings or [None]. *)
Definition str_of_value (str_of_object : value -> string) (x : value) : string :=
  match x with
  | VInt n => Py.str_of_int n
  | VStr s => s
  | VNone => "None"
  | _ => str_of_object x
  end.

Definition tabnr (str_of_object : value -> string) (vim : Vim)
    (segment_info : gmap string value) (show_current : bool) : fragment :=
  match segment_info !! "tabnr" with
  | None => Absent
  | Some tabnr =>
      if (show_current
          || negb (bool_decide (tabnr = VInt (tab_number (current_tabpage vim)))))%bool
      then Text (str_of_value str_of_object tabnr)
      else Absent
  end.

(** [visual_range]: the two positions are read with [getpos], their columns
    replaced by [virtcol] of the position. *)
Definition visual_range (f : VimFuncs) (segment_info : gmap string value)
  : result fragment :=
  match segment_info !! "mode" with
  | None => Raise KeyError
  | Some mode =>
      if negb (bool_decide (mode ∈ [VStr "v"; VStr "V"; VStr "^V"])) then Ok Absent
      else
        let '(_, l1, c1, o1) := getpos f "v" in
        let '(_, l2, c2, o2) := getpos f "." in
        let visual_start := (l1, virtcol f (l1, c1, o1)) in
        let visual_end := (l2, virtcol f (l2, c2, o2)) in
        let diff_rows := Z.abs (visual_end.1 - visual_start.1) + 1 in
        let diff_cols := Z.abs (visual_end.2 - visual_start.2) + 1 in
        if bool_decide (mode = VStr "^V") then
          Ok (Text (String.append (Py.str_of_int diff_rows)
                      (String.append " × " (Py.str_of_int diff_cols))))
        else if (bool_decide (mode = VStr "V") || (1 <? diff_rows))%bool then
          Ok (Text (String.append (Py.str_of_int diff_rows) " rows"))
        else
          Ok (Text (String.append (Py.str_of_int diff_cols) " cols"))
  end.

(** [modified_buffers]: the numbers from 1 to [bufnr('$')] whose buffer has
    a [&modified] that is neither empty nor 0. *)
Definition is_modified (f : VimFuncs) (n : Z) : bool :=
  match getbufvar_modified f n with
  | None => false
  | Some m => negb (m =? 0)
  end.

Definition buffer_mod (f : VimFuncs) : list string :=
  map Py.str_of_int
    (List.filter (is_modified f)
       (map Z.of_nat (seq 1 (Z.to_nat (bufnr_last f))))).

Definition modified_buffers (f : VimFuncs) (text join_str : string) : fragment :=
  match buffer_mod f with
  | [] => Absent
  | mods => Text (String.append text (String.concat join_str mods))
  end.

(** ** Vocabulary of the further statements *)

(** What [bufferlister] lists for buffer [b], in the store [h'] it leaves:
    the second component by the distance to the current buffer, and a
    context that holds [b] and its number and no window. *)
Definition listed_for_buffer (cur : buffer) (h' : gmap nat (gmap string value))
    (b : buffer) (p : nat * override) : Prop :=
  priority_multiplier p.2 =
    PrimFloat.add 1%float
      (PrimFloat.mul 0.001%float
         (Py.float_of_int (Z.abs (buf_number b - buf_number cur))))
  /\ ov_mode p.2 = (if decide (b = cur) then "tab" else "nc")
  /\ exists d' : gmap string value,
       h' !! p.1 = Some d'
       /\ d' !! "buffer" = Some (VBuffer b)
       /\ d' !! "bufnr" = Some (VInt (buf_number b))
       /\ d' !! "window" = Some VNone
       /\ d' !! "winnr" = Some VNone
       /\ d' !! "window_id" = Some VNone.

(** A call of a [window_cached] function is focused when its context has a
    [window_id] and a [mode] other than ['nc']. *)
Definition is_focused (segment_info : gmap string value) : bool :=
  match segment_info !! "window_id", segment_info !! "mode" with
  | Some _, Some m => negb (bool_decide (m = VStr "nc"))
  | _, _ => false
  end.

(** The editor with the two ends of the visual selection exchanged. *)
Definition swap_ends (f : VimFuncs) : VimFuncs :=
  {| getpos := fun s => if String.eqb s "v" then getpos f "."
                        else if String.eqb s "." then getpos f "v"
                        else getpos f s;
     virtcol := virtcol f;
     bufnr_last := bufnr_last f;
     getbufvar_modified := getbufvar_modified f |}.

(** ** Further concrete contexts *)

Module Examples2.

(** The context of buffer 1 when the buffer object holds no line. *)
Definition empty_buffer1 : gmap string value :=
  <["bufnr" := VInt 1]> (<["buffer" := VBuffer (Examples.mkbuf 1 [])]> ∅).

(** The context of buffer 1 after its only line has lost the trailing
    space, the counter being what it was. *)
Definition buffer1_edited : gmap string value :=
  <["bufnr" := VInt 1]>
    (<["buffer" := VBuffer (Examples.mkbuf 1 [Decoded "x"])]> ∅).

(** An editor with a visual selection from line 3, column 5 to line 1,
    column 2, and five buffers of which the second and the fourth are
    modified. *)
Definition funcs : VimFuncs :=
  {| getpos := fun s => if String.eqb s "v" then (0, 3, 5, 0) else (0, 1, 2, 0);
     virtcol := fun p => p.1.2;
     bufnr_last := 5;
     getbufvar_modified :=
       fun n => if (n =? 2) || (n =? 4) then Some 1
                else if n =? 5 then None else Some 0 |}.

End Examples2.

(** * Properties *)

(** ** mode *)

Lemma nc_is_no_vim_mode : vim_modes !! "nc" = None.
Proof. vm_compute. reflexivity. Qed.

Lemma mode_default (segment_info : gmap string value) (m s : string) :
  segment_info !! "mode" = Some (VStr m) ->
  vim_modes !! m = Some s ->
  Text <$> getitem vim_modes (VStr m) = Ok (Text s).
Proof. intros _ Hs. unfold getitem. rewrite Hs. reflexivity. Qed.

(** C7. For a context whose mode [m] is a key of the default table, with
    string [s] there: without an override (unset or empty) the segment
    returns [s]; with an override that has [m] it returns the override's
    string; with an override that lacks [m] it returns [s] again. It raises
    nothing and never returns [None]. *)
Theorem mode_override_falls_back_to_default
    (segment_info : gmap string value) (m s : string) :
  segment_info !! "mode" = Some (VStr m) ->
  vim_modes !! m = Some s ->
  mode segment_info None = Ok (Text s)
  /\ mode segment_info (Some ∅) = Ok (Text s)
  /\ (forall (o : gmap string string) (t : string),
        o !! m = Some t -> mode segment_info (Some o) = Ok (Text t))
  /\ (forall o : gmap string string,
        o !! m = None -> mode segment_info (Some o) = Ok (Text s)).
Proof.
  intros Hm Hs.
  assert (Hnc : VStr m <> VStr "nc").
  { intros [= ->]. rewrite nc_is_no_vim_mode in Hs. discriminate. }
  assert (Hd := mode_default _ _ _ Hm Hs).
  unfold mode. rewrite Hm.
  destruct (decide (VStr m = VStr "nc")) as [|_]; [contradiction|].
  split; [exact Hd|].
  split; [destruct (decide (∅ = ∅)); [exact Hd|congruence]|].
  split.
  - intros o t Ho.
    destruct (decide (o = ∅)) as [->|_].
    + rewrite lookup_empty in Ho. discriminate.
    + unfold getitem at 1. rewrite Ho. reflexivity.
  - intros o Ho.
    destruct (decide (o = ∅)) as [_|_]; [exact Hd|].
    unfold getitem at 1. rewrite Ho. exact Hd.
Qed.

Lemma mode_override_falls_back_to_default_witness :
  mode (<["mode" := VStr "i"]> ∅) None = Ok (Text "INSERT")
  /\ mode (<["mode" := VStr "i"]> ∅) (Some ∅) = Ok (Text "INSERT")
  /\ (forall (o : gmap string string) (t : string),
        o !! "i" = Some t ->
        mode (<["mode" := VStr "i"]> ∅) (Some o) = Ok (Text t))
  /\ (forall o : gmap string string,
        o !! "i" = None ->
        mode (<["mode" := VStr "i"]> ∅) (Some o) = Ok (Text "INSERT")).
Proof.
  apply (mode_override_falls_back_to_default (<["mode" := VStr "i"]> ∅) "i" "INSERT").
  - vm_compute. reflexivity.
  - vm_compute. reflexivity.
Defined.

(** ** file_name *)

(** C9. When [buffer_name] gives nothing for the buffer of the context
    ([None], or the empty string), [file_name] with [display_no_file] at its
    default returns [None], which is not the empty string; a second call
    does the same, and the module state (the global cache and the log of
    buffer accesses) after both calls is the state before them. *)
Theorem file_name_absent_twice
    (buffer_name : value -> result (option string))
    (decode : string -> result string)
    (segment_info : gmap string value) (b : value)
    (no_file_text : string) (st : state) :
  segment_info !! "buffer" = Some b ->
  buffer_name b = Ok None \/ buffer_name b = Ok (Some EmptyString) ->
  let call := file_name buffer_name decode segment_info
                display_no_file_default no_file_text in
  let r1 := call st in
  let r2 := call r1.2 in
  r1.1 = Ok Absent /\ r2.1 = Ok Absent
  /\ r1.2 = st /\ r2.2 = st
  /\ Ok Absent <> Ok (Text EmptyString).
Proof.
  intros Hb Hname call r1 r2.
  assert (H1 : call st = (Ok Absent, st)).
  { unfold call, file_name, display_no_file_default.
    rewrite Hb. destruct Hname as [-> | ->]; reflexivity. }
  unfold r2, r1. rewrite H1. simpl. rewrite H1. simpl.
  repeat split; congruence.
Qed.

Lemma file_name_absent_twice_witness :
  let segment_info : gmap string value :=
    <["buffer" := VBuffer (Examples.mkbuf 1 [Decoded "text"])]> ∅ in
  let call := file_name Examples.no_name (fun s => Ok s) segment_info
                display_no_file_default no_file_text_default in
  (call Examples.fresh_state).1 = Ok Absent
  /\ (call (call Examples.fresh_state).2).1 = Ok Absent
  /\ (call Examples.fresh_state).2 = Examples.fresh_state
  /\ (call (call Examples.fresh_state).2).2 = Examples.fresh_state
  /\ Ok Absent <> Ok (Text EmptyString).
Proof.
  intros segment_info call.
  apply (file_name_absent_twice Examples.no_name (fun s => Ok s) segment_info
           (VBuffer (Examples.mkbuf 1 [Decoded "text"]))
           no_file_text_default Examples.fresh_state).
  - vm_compute. reflexivity.
  - left. reflexivity.
Defined.

(** ** line_percent *)

(** C8. In a window whose cursor is on line 50, over a buffer of 100 lines,
    [line_percent] with [gradient=True] returns one dictionary whose
    [gradient_level] is [50.0] and whose [contents] is ["50"]; with
    [gradient=False] it returns the string ["50"] alone. This holds under
    both versions of the interpreter. *)
Theorem line_percent_50_of_100
    (v : PyVersion) (segment_info : gmap string value)
    (window : window) (buffer : buffer) :
  segment_info !! "window" = Some (VWindow window) ->
  segment_info !! "buffer" = Some (VBuffer buffer) ->
  (win_cursor window).1 = 50 ->
  length (buf_lines buffer) = 100%nat ->
  line_percent v segment_info true =
    Ok (Parts [{| contents := "50";
                  highlight_group := ["line_percent_gradient"; "line_percent"];
                  divider_highlight_group := None;
                  gradient_level := Some 50%float |}])
  /\ line_percent v segment_info false = Ok (Text "50").
Proof.
  intros Hw Hb Hc Hl.
  unfold line_percent. rewrite Hw, Hb, Hc, Hl.
  destruct v; split; vm_compute; reflexivity.
Qed.

Lemma line_percent_50_of_100_witness :
  line_percent Py3 Examples.line50 true =
    Ok (Parts [{| contents := "50";
                  highlight_group := ["line_percent_gradient"; "line_percent"];
                  divider_highlight_group := None;
                  gradient_level := Some 50%float |}])
  /\ line_percent Py3 Examples.line50 false = Ok (Text "50").
Proof.
  apply (line_percent_50_of_100 Py3 Examples.line50
           (Examples.mkwin 1 Examples.hundred_lines 50 11)
           (Examples.mkbuf 1 Examples.hundred_lines)).
  - vm_compute. reflexivity.
  - vm_compute. reflexivity.
  - reflexivity.
  - reflexivity.
Defined.
(** ** Contexts *)

Section Store.

Implicit Types (h : gmap nat (gmap string value)) (d : gmap string value).

(** A copy that is then updated: the store grows by one dictionary, at a
    reference that was not in use. *)
Lemma copy_then_update h (l : nat) d (kvs : list (string * value)) :
  h !! l = Some d ->
  h !! fresh (dom h) = None
  /\ (c ← dict_copy h l; Some (dict_update c.1 c.2 kvs, c.2)) =
       Some (<[fresh (dom h) := set_items kvs d]> h, fresh (dom h)).
Proof.
  intros Hl.
  assert (Hnew : h !! fresh (dom h) = None)
    by apply not_elem_of_dom, is_fresh.
  split; [exact Hnew|].
  unfold dict_copy, dict_update. rewrite Hl. simpl. do 2 f_equal.
  apply map_eq. intros i. destruct (decide (i = fresh (dom h))) as [->|Hi].
  - by rewrite lookup_alter_eq, !lookup_insert_eq.
  - by rewrite lookup_alter_ne, !lookup_insert_ne.
Qed.

Lemma tabpage_updated_segment_info_eq h (base : nat) d (T : tabpage) :
  h !! base = Some d ->
  tabpage_updated_segment_info h base T =
    Some (<[fresh (dom h) := set_items (tabpage_items T) d]> h,
          fresh (dom h)).
Proof.
  intros Hb. destruct (copy_then_update h base d (tabpage_items T) Hb) as [_ <-].
  unfold tabpage_updated_segment_info.
  destruct (dict_copy h base) as [[h1 c]|]; reflexivity.
Qed.

Lemma buffer_updated_segment_info_eq h (base : nat) d (b : buffer) :
  h !! base = Some d ->
  buffer_updated_segment_info h base b =
    Some (<[fresh (dom h) := set_items (buffer_items b) d]> h,
          fresh (dom h)).
Proof.
  intros Hb. destruct (copy_then_update h base d (buffer_items b) Hb) as [_ <-].
  unfold buffer_updated_segment_info.
  destruct (dict_copy h base) as [[h1 c]|]; reflexivity.
Qed.

Lemma fresh_unused h : h !! fresh (dom h) = None.
Proof. apply not_elem_of_dom, is_fresh. Qed.

Lemma insert_fresh_keeps h d (l : nat) (x : gmap string value) :
  h !! l = Some x -> <[fresh (dom h) := d]> h !! l = Some x.
Proof.
  intros Hl. rewrite lookup_insert_ne; [exact Hl|].
  intros E. rewrite <- E, fresh_unused in Hl. discriminate.
Qed.

End Store.

(** C6. Deriving the context of a tab page [T] from a base context: the
    result is a reference that was not in use, the base dictionary and every
    other dictionary of the store are as before, and the new dictionary holds
    the seven tab-local values under [tabpage], [tabnr], [window], [winnr],
    [window_id], [buffer] and [bufnr] and, under every other key, what the
    base dictionary holds. *)
Theorem tabpage_updated_segment_info_copies
    (h : gmap nat (gmap string value)) (base : nat)
    (d : gmap string value) (T : tabpage) :
  h !! base = Some d ->
  exists (h' : gmap nat (gmap string value)) (c : nat)
         (d' : gmap string value),
    tabpage_updated_segment_info h base T = Some (h', c)
    /\ h !! c = None
    /\ h' !! base = Some d
    /\ (forall l : nat, l <> c -> h' !! l = h !! l)
    /\ h' !! c = Some d'
    /\ d' !! "tabpage" = Some (VTabpage T)
    /\ d' !! "tabnr" = Some (VInt (tab_number T))
    /\ d' !! "window" = Some (VWindow (tab_window T))
    /\ d' !! "winnr" = Some (VInt (win_number (tab_window T)))
    /\ d' !! "window_id" =
         Some (VInt (default (-1)
                       (win_vars (tab_window T) !! "powerline_window_id")))
    /\ d' !! "buffer" = Some (VBuffer (win_buffer (tab_window T)))
    /\ d' !! "bufnr" = Some (VInt (buf_number (win_buffer (tab_window T))))
    /\ (forall k : string,
          k ∉ ["tabpage"; "tabnr"; "window"; "winnr"; "window_id";
               "buffer"; "bufnr"] ->
          d' !! k = d !! k).
Proof.
  intros Hbase.
  eexists _, _, _.
  split; [exact (tabpage_updated_segment_info_eq h base d T Hbase)|].
  split; [apply fresh_unused|].
  split; [by apply insert_fresh_keeps|].
  split; [intros l Hl; by rewrite lookup_insert_ne|].
  split; [by rewrite lookup_insert_eq|].
  unfold set_items, tabpage_items; simpl.
  repeat (split; [by simplify_map_eq|]).
  intros k Hk.
  repeat (rewrite lookup_insert_ne; [|intros <-; apply Hk; set_solver]).
  reflexivity.
Qed.

Lemma tabpage_updated_segment_info_copies_witness :
  exists (h' : gmap nat (gmap string value)) (c : nat)
         (d' : gmap string value),
    tabpage_updated_segment_info Examples.one_context 0 (Examples.mktab 2) =
      Some (h', c)
    /\ Examples.one_context !! c = None
    /\ h' !! 0%nat = Some Examples.base_context
    /\ (forall l : nat, l <> c -> h' !! l = Examples.one_context !! l)
    /\ h' !! c = Some d'
    /\ d' !! "tabpage" = Some (VTabpage (Examples.mktab 2))
    /\ d' !! "tabnr" = Some (VInt (tab_number (Examples.mktab 2)))
    /\ d' !! "window" = Some (VWindow (tab_window (Examples.mktab 2)))
    /\ d' !! "winnr" =
         Some (VInt (win_number (tab_window (Examples.mktab 2))))
    /\ d' !! "window_id" =
         Some (VInt (default (-1)
                       (win_vars (tab_window (Examples.mktab 2))
                          !! "powerline_window_id")))
    /\ d' !! "buffer" =
         Some (VBuffer (win_buffer (tab_window (Examples.mktab 2))))
    /\ d' !! "bufnr" =
         Some (VInt (buf_number (win_buffer (tab_window (Examples.mktab 2)))))
    /\ (forall k : string,
          k ∉ ["tabpage"; "tabnr"; "window"; "winnr"; "window_id";
               "buffer"; "bufnr"] ->
          d' !! k = Examples.base_context !! k).
Proof.
  apply (tabpage_updated_segment_info_copies Examples.one_context 0
           Examples.base_context (Examples.mktab 2)).
  vm_compute. reflexivity.
Defined.

(** ** Listers *)

Lemma tablister_pairs_listed (cur : tabpage) (tabpages : list tabpage) :
  forall (h : gmap nat (gmap string value)) (base : nat)
         (d : gmap string value),
    h !! base = Some d ->
    exists (h' : gmap nat (gmap string value)) (pairs : list (nat * override)),
      tablister_pairs h base cur tabpages = Some (h', pairs)
      /\ (forall (l : nat) (x : gmap string value),
            h !! l = Some x -> h' !! l = Some x)
      /\ Forall2 (listed_for cur h') tabpages pairs
      /\ map snd pairs = map (tab_override cur) tabpages.
Proof.
  induction tabpages as [|T rest IH]; intros h base d Hbase.
  - exists h, []. simpl. repeat split; [auto|constructor].
  - simpl. rewrite (tabpage_updated_segment_info_eq h base d T Hbase). simpl.
    set (c := fresh (dom h)).
    set (d1 := set_items (tabpage_items T) d).
    destruct (IH (<[c := d1]> h) base d (insert_fresh_keeps h d1 base d Hbase))
      as (h' & pairs & Heq & Hkeep & Hrest & Hsnd).
    rewrite Heq. simpl. eexists _, _. split; [reflexivity|].
    split.
    + intros l x Hl. apply Hkeep. by apply insert_fresh_keeps.
    + split; [|simpl; by rewrite Hsnd].
      constructor; [|exact Hrest].
      split; [reflexivity|]. split; [reflexivity|].
      exists d1. simpl.
      split; [apply Hkeep; by rewrite lookup_insert_eq|].
      unfold d1, set_items, tabpage_items; simpl.
      split; by simplify_map_eq.
Qed.

(** C4. [tablister] returns one pair per tab page, in the order in which
    [list_tabpages()] gives them: the pair of tab page [T] has
    [priority_multiplier] equal to [1 + 0.001 * abs(T.number - cur.number)]
    (in floating point), its mode is ['tab'] when [T] is the current tab
    page and ['nc'] otherwise, and its context is a dictionary of the final
    store made for [T]. The base context is as it was. For tab pages
    numbered 1, 2, 3 with the second one current the second components are
    [nc, 1.001], [tab, 1.0], [nc, 1.001] in this order. *)
Theorem tablister_order_and_multipliers
    (vim : Vim) (h : gmap nat (gmap string value)) (base : nat)
    (d : gmap string value) :
  h !! base = Some d ->
  exists (h' : gmap nat (gmap string value)) (pairs : list (nat * override)),
    tablister vim h base = Some (h', pairs)
    /\ h' !! base = Some d
    /\ Forall2 (listed_for (current_tabpage vim) h') (list_tabpages vim) pairs
    /\ (map tab_number (list_tabpages vim) = [1; 2; 3] ->
        current_tabpage vim ∈ list_tabpages vim ->
        tab_number (current_tabpage vim) = 2 ->
        map snd pairs =
          [ {| ov_mode := "nc"; priority_multiplier := 1.001%float |};
            {| ov_mode := "tab"; priority_multiplier := 1%float |};
            {| ov_mode := "nc"; priority_multiplier := 1.001%float |} ]).
Proof.
  intros Hbase. unfold tablister.
  destruct (tablister_pairs_listed (current_tabpage vim) (list_tabpages vim)
              h base d Hbase) as (h' & pairs & Heq & Hkeep & Hall & Hsnd).
  exists h', pairs.
  split; [exact Heq|]. split; [by apply Hkeep|]. split; [exact Hall|].
  intros Hnum Hin Hcur. rewrite Hsnd.
  destruct (list_tabpages vim) as [|t1 [|t2 [|t3 [|t4 l]]]]; try discriminate.
  injection Hnum as H1 H2 H3.
  assert (Hc : current_tabpage vim = t2).
  { set_unfold. destruct Hin as [E|[E|[E|[]]]]; [|exact E|]; rewrite E in Hcur; lia. }
  rewrite Hc. simpl. unfold tab_override, multiplier. rewrite H1, H2, H3.
  destruct (decide (t1 = t2)) as [E|_]; [rewrite E in H1; lia|].
  destruct (decide (t2 = t2)) as [_|N]; [|congruence].
  destruct (decide (t3 = t2)) as [E|_]; [rewrite E in H3; lia|].
  reflexivity.
Qed.

Lemma tablister_order_and_multipliers_witness :
  exists (h' : gmap nat (gmap string value)) (pairs : list (nat * override)),
    tablister Examples.three_tabs Examples.one_context 0 = Some (h', pairs)
    /\ h' !! 0%nat = Some Examples.base_context
    /\ Forall2 (listed_for (current_tabpage Examples.three_tabs) h')
         (list_tabpages Examples.three_tabs) pairs
    /\ map snd pairs =
         [ {| ov_mode := "nc"; priority_multiplier := 1.001%float |};
           {| ov_mode := "tab"; priority_multiplier := 1%float |};
           {| ov_mode := "nc"; priority_multiplier := 1.001%float |} ].
Proof.
  destruct (tablister_order_and_multipliers Examples.three_tabs
              Examples.one_context 0 Examples.base_context)
    as (h' & pairs & H1 & H2 & H3 & H4).
  { vm_compute. reflexivity. }
  exists h', pairs.
  split; [exact H1|]. split; [exact H2|]. split; [exact H3|].
  apply H4.
  - reflexivity.
  - simpl. set_solver.
  - reflexivity.
Defined.

(** C2. With one tab page and the buffers 1, 2, 3 of which the first is
    current, [tabbuflister] returns what [bufferlister] returns, three pairs
    in the order of the buffers; their modes are ['tab'], ['nc'], ['nc']:
    the current buffer is tagged ['tab'], not ['buf'] as the docstring of
    [bufferlister] has it. With three tab pages [tabbuflister] returns what
    [tablister] returns. *)
Theorem tabbuflister_current_buffer_tagged_tab :
  tabbuflister Examples.one_tab Examples.one_context 0 =
    bufferlister Examples.one_tab Examples.one_context 0
  /\ (map snd <$> (snd <$> tabbuflister Examples.one_tab Examples.one_context 0)) =
       Some [ {| ov_mode := "tab"; priority_multiplier := 1%float |};
              {| ov_mode := "nc"; priority_multiplier := 1.001%float |};
              {| ov_mode := "nc"; priority_multiplier := 1.002%float |} ]
  /\ (map (fun p => ov_mode p.2) <$>
        (snd <$> tabbuflister Examples.one_tab Examples.one_context 0)) <>
       Some ["buf"; "nc"; "nc"]
  /\ tabbuflister Examples.three_tabs Examples.one_context 0 =
       tablister Examples.three_tabs Examples.one_context 0.
Proof.
  split; [reflexivity|].
  split; [vm_compute; reflexivity|].
  split; [vm_compute; discriminate|].
  reflexivity.
Qed.

(** ** window_cached *)

Section WindowCachedFacts.

Context {K W : Type}.
Variable func : K -> W -> result fragment * W.

(** A call leaves the entry of [wid] alone unless it is a focused call
    for [wid]. *)
Lemma window_cached_other (cache : gmap value fragment)
    (segment_info : gmap string value) (kwargs : K) (w : W) (wid : value) :
  (segment_info !! "window_id" = Some wid ->
   forall m : value, segment_info !! "mode" = Some m -> m = VStr "nc") ->
  (window_cached func cache segment_info kwargs w).1.2 !! wid = cache !! wid.
Proof.
  intros Hnc. unfold window_cached.
  destruct (segment_info !! "window_id") as [wid'|] eqn:Hid; [|reflexivity].
  destruct (segment_info !! "mode") as [m|] eqn:Hm; [|reflexivity].
  destruct (decide (m = VStr "nc")) as [->|Hne]; [reflexivity|].
  destruct (func kwargs w) as [[r|e] w']; [|reflexivity]. simpl.
  destruct (decide (wid' = wid)) as [->|Hw].
  - specialize (Hnc eq_refl m eq_refl). congruence.
  - by rewrite lookup_insert_ne.
Qed.

Lemma window_cached_calls_other (calls : list (gmap string value * K))
    (wid : value) :
  Forall (fun call => call.1 !! "window_id" = Some wid ->
                      forall m : value,
                        call.1 !! "mode" = Some m -> m = VStr "nc") calls ->
  forall (cache : gmap value fragment) (w : W),
    (window_cached_calls func cache calls w).1 !! wid = cache !! wid.
Proof.
  induction 1 as [|[si kw] rest Hcall _ IH]; intros cache w; [reflexivity|].
  simpl.
  pose proof (window_cached_other cache si kw w wid Hcall) as Hstep.
  destruct (window_cached func cache si kw w) as [[r cache'] w'].
  simpl in Hstep. rewrite IH. exact Hstep.
Qed.

(** A call that is not focused reads the cache and nothing else. *)
Lemma window_cached_nc (cache : gmap value fragment)
    (segment_info : gmap string value) (kwargs : K) (w : W) (wid : value) :
  segment_info !! "window_id" = Some wid ->
  segment_info !! "mode" = Some (VStr "nc") ->
  window_cached func cache segment_info kwargs w =
    (Ok (default Absent (cache !! wid)), cache, w).
Proof.
  intros Hid Hm. unfold window_cached. rewrite Hid, Hm.
  destruct (decide (VStr "nc" = VStr "nc")); [reflexivity|congruence].
Qed.

(** A focused call that returns a value has stored it. *)
Lemma window_cached_stores (cache cache1 : gmap value fragment)
    (segment_info : gmap string value) (kwargs : K) (w w1 : W)
    (wid : value) (A : fragment) :
  segment_info !! "window_id" = Some wid ->
  segment_info !! "mode" <> Some (VStr "nc") ->
  window_cached func cache segment_info kwargs w = (Ok A, cache1, w1) ->
  cache1 !! wid = Some A.
Proof.
  intros Hid Hm. unfold window_cached. rewrite Hid.
  destruct (segment_info !! "mode") as [m|]; [|discriminate].
  destruct (decide (m = VStr "nc")) as [->|_]; [congruence|].
  destruct (func kwargs w) as [[r|e] w']; [|discriminate].
  intros [= <- <- <-]. by rewrite lookup_insert_eq.
Qed.

End WindowCachedFacts.

(** C5. Let a focused call for window [wid] return [A], so that [A] is the
    value stored for [wid], and let any calls follow that leave it the last
    one stored: calls for other windows, calls that are not focused, calls
    that lack a mode (none, in particular). Then a call for [wid] that is
    not focused returns [A], whatever the wrapped function would return,
    and leaves the cache, the world and the count of invocations of the
    wrapped function as they were. A call that is not focused, for a window
    that has no stored value, returns [None] and invokes nothing either. *)
Theorem window_cached_unfocused_returns_stored
    {K W : Type} (func : K -> W -> result fragment * W)
    (wid : value) (A : fragment)
    (cache cache1 : gmap value fragment)
    (first later : gmap string value) (kw1 kw2 : K)
    (n n1 : nat) (w w1 : W)
    (between : list (gmap string value * K)) :
  first !! "window_id" = Some wid ->
  first !! "mode" <> Some (VStr "nc") ->
  window_cached (counting func) cache first kw1 (n, w) = (Ok A, cache1, (n1, w1)) ->
  Forall (fun call => call.1 !! "window_id" = Some wid ->
                      forall m : value,
                        call.1 !! "mode" = Some m -> m = VStr "nc") between ->
  later !! "window_id" = Some wid ->
  later !! "mode" = Some (VStr "nc") ->
  (forall (cache2 : gmap value fragment) (nw2 : nat * W),
     window_cached_calls (counting func) cache1 between (n1, w1) = (cache2, nw2) ->
     window_cached (counting func) cache2 later kw2 nw2 = (Ok A, cache2, nw2))
  /\ (forall (cache0 : gmap value fragment) (nw0 : nat * W),
        cache0 !! wid = None ->
        window_cached (counting func) cache0 later kw2 nw0 =
          (Ok Absent, cache0, nw0)).
Proof.
  intros Hid Hfoc Hfirst Hbetween Hid2 Hnc. split.
  - intros cache2 nw2 Hrun.
    rewrite (window_cached_nc _ cache2 later kw2 nw2 wid Hid2 Hnc).
    pose proof (window_cached_calls_other (counting func) between wid
                  Hbetween cache1 (n1, w1)) as Hsame.
    rewrite Hrun in Hsame. simpl in Hsame. rewrite Hsame.
    rewrite (window_cached_stores _ _ _ _ _ _ _ _ _ Hid Hfoc Hfirst).
    reflexivity.
  - intros cache0 nw0 Hnone.
    rewrite (window_cached_nc _ cache0 later kw2 nw0 wid Hid2 Hnc), Hnone.
    reflexivity.
Qed.

Lemma window_cached_unfocused_returns_stored_witness :
  (forall (cache2 : gmap value fragment) (nw2 : nat * unit),
     window_cached_calls (counting Examples.echo)
       (<[VInt 11 := Text "A"]> ∅)
       [(Examples.not_focused, "X"); (Examples.focused_elsewhere, "Y");
        (Examples.without_mode, "Z")]
       (1%nat, ()) = (cache2, nw2) ->
     window_cached (counting Examples.echo) cache2 Examples.not_focused "C" nw2 =
       (Ok (Text "A"), cache2, nw2))
  /\ (forall (cache0 : gmap value fragment) (nw0 : nat * unit),
        cache0 !! VInt 11 = None ->
        window_cached (counting Examples.echo) cache0 Examples.not_focused "C" nw0 =
          (Ok Absent, cache0, nw0)).
Proof.
  apply (window_cached_unfocused_returns_stored Examples.echo (VInt 11)
           (Text "A") ∅ (<[VInt 11 := Text "A"]> ∅)
           Examples.focused Examples.not_focused "A" "C" 0%nat 1%nat () ()
           [(Examples.not_focused, "X"); (Examples.focused_elsewhere, "Y");
            (Examples.without_mode, "Z")]).
  - reflexivity.
  - discriminate.
  - reflexivity.
  - constructor; [intros _ m H; vm_compute in H; congruence|].
    constructor; [intros H; vm_compute in H; discriminate H|].
    constructor; [intros _ m H; vm_compute in H; discriminate H|].
    constructor.
  - reflexivity.
  - reflexivity.
Defined.

(** A focused call replaces the stored value: after a focused call for
    window 11 that returns ["A"] and a second one that returns ["B"], the
    call that follows, not focused, returns ["B"], the last value stored. *)
Lemma window_cached_later_focused_call_replaces :
  let c1 := window_cached Examples.echo ∅ Examples.focused "A" () in
  let c2 := window_cached Examples.echo c1.1.2 Examples.focused "B" () in
  let c3 := window_cached Examples.echo c2.1.2 Examples.not_focused "C" () in
  c1.1.1 = Ok (Text "A")
  /\ c2.1.1 = Ok (Text "B")
  /\ c3.1.1 = Ok (Text "B")
  /\ c3.1.1 <> Ok (Text "A").
Proof.
  vm_compute. repeat split; discriminate.
Qed.

(** ** trailing_whitespace: the scan *)

Section Scan.

Import TrailingWhitespace.

Variables (v : PyVersion) (bindeval : bool) (bufnr : value).

Local Abbreviation flagged := (has_trailing_ws v bindeval).
Local Abbreviation items i n := (map (EvItem bufnr) (seq i n)).

(** The loop over lines none of which is flagged reads them all. *)
Lemma scan_loop_none (rest : list line_read) :
  Forall (fun l => flagged l = Ok false) rest ->
  forall (i : nat) (vars : loop_vars) (log : list event),
    scan_loop v bindeval bufnr rest i vars log =
      (Ok (match rest with
           | [] => vars
           | _ => Some ((i + length rest - 1)%nat, false)
           end),
       log ++ items i (length rest)).
Proof.
  induction 1 as [|l rest Hl Hrest IH]; intros i vars log.
  - simpl. by rewrite app_nil_r.
  - simpl. rewrite Hl, IH. f_equal.
    + destruct rest; simpl; do 3 f_equal; lia.
    + by rewrite <- app_assoc.
Qed.

(** The loop stops at the first flagged line. *)
Lemma scan_loop_first (pre post : list line_read) (l : line_read) :
  Forall (fun l => flagged l = Ok false) pre ->
  flagged l = Ok true ->
  forall (i : nat) (vars : loop_vars) (log : list event),
    scan_loop v bindeval bufnr (pre ++ l :: post) i vars log =
      (Ok (Some ((i + length pre)%nat, true)),
       log ++ items i (S (length pre))).
Proof.
  induction 1 as [|l' pre Hl' Hpre IH]; intros Hl i vars log.
  - simpl. rewrite Hl. do 4 f_equal. lia.
  - simpl. rewrite Hl', (IH Hl). f_equal.
    + do 3 f_equal. lia.
    + by rewrite <- app_assoc.
Qed.

(** The loop is left by the first exception. *)
Lemma scan_loop_raise (pre post : list line_read) (l : line_read) (e : exn) :
  Forall (fun l => flagged l = Ok false) pre ->
  flagged l = Raise e ->
  forall (i : nat) (vars : loop_vars) (log : list event),
    scan_loop v bindeval bufnr (pre ++ l :: post) i vars log =
      (Raise e, log ++ items i (S (length pre))).
Proof.
  induction 1 as [|l' pre Hl' Hpre IH]; intros Hl i vars log.
  - simpl. by rewrite Hl.
  - simpl. rewrite Hl', (IH Hl). f_equal. by rewrite <- app_assoc.
Qed.

(** When the test raises on no line, a buffer either has a first flagged
    line or no flagged line. *)
Lemma first_flagged_or_none (lines : list line_read) :
  Forall (test_returns v bindeval) lines ->
  Forall (fun l => flagged l = Ok false) lines
  \/ exists (pre post : list line_read) (l : line_read),
       lines = pre ++ l :: post
       /\ Forall (fun l => flagged l = Ok false) pre
       /\ flagged l = Ok true.
Proof.
  induction 1 as [|l lines Hl _ IH]; [left; constructor|].
  unfold test_returns in Hl.
  destruct (flagged l) as [[|]|e] eqn:El; [| |contradiction].
  - right. exists [], lines, l. repeat split; [constructor|exact El].
  - destruct IH as [Hnone|(pre & post & l' & -> & Hpre & Hl')].
    + left. by constructor.
    + right. exists (l :: pre), post, l'.
      repeat split; [by constructor|exact Hl'].
Qed.

Lemma scan_none (buf : buffer) (log : list event) :
  buf_lines buf <> [] ->
  Forall (fun l => flagged l = Ok false) (buf_lines buf) ->
  scan v bindeval bufnr buf log =
    (Ok Absent, log ++ EvLen bufnr :: items 0 (length (buf_lines buf))).
Proof.
  intros Hne Hnone. unfold scan. rewrite (scan_loop_none _ Hnone).
  destruct (buf_lines buf); [congruence|].
  by rewrite <- app_assoc.
Qed.

Lemma scan_first (buf : buffer) (log : list event)
    (pre post : list line_read) (l : line_read) :
  buf_lines buf = pre ++ l :: post ->
  Forall (fun l => flagged l = Ok false) pre ->
  flagged l = Ok true ->
  scan v bindeval bufnr buf log =
    (Ok (Parts [{| contents := Py.str_of_int (Z.of_nat (length pre) + 1);
                   highlight_group := ["trailing_whitespace"; "warning"];
                   divider_highlight_group := None;
                   gradient_level := None |}]),
     log ++ EvLen bufnr :: items 0 (S (length pre))).
Proof.
  intros Hlines Hpre Hl. unfold scan.
  rewrite Hlines, (scan_loop_first _ _ _ Hpre Hl).
  by rewrite <- app_assoc.
Qed.

Lemma scan_raise (buf : buffer) (log : list event)
    (pre post : list line_read) (l : line_read) (e : exn) :
  buf_lines buf = pre ++ l :: post ->
  Forall (fun l => flagged l = Ok false) pre ->
  flagged l = Raise e ->
  scan v bindeval bufnr buf log =
    (Raise e, log ++ EvLen bufnr :: items 0 (S (length pre))).
Proof.
  intros Hlines Hpre Hl. unfold scan.
  rewrite Hlines, (scan_loop_raise _ _ _ _ Hpre Hl).
  by rewrite <- app_assoc.
Qed.

(** A scan of a buffer that has a line, on none of whose lines the test
    raises, returns, and asks for the length of the buffer once. *)
Lemma scan_returns (buf : buffer) (log : list event) :
  buf_lines buf <> [] ->
  Forall (test_returns v bindeval) (buf_lines buf) ->
  exists (ret : fragment) (log' : list event),
    scan v bindeval bufnr buf log = (Ok ret, log')
    /\ scans log' = S (scans log).
Proof.
  intros Hne Hret.
  assert (Hcount : forall n, scans (log ++ EvLen bufnr :: items 0 n) = S (scans log)).
  { intros n. unfold scans.
    rewrite List.filter_app, length_app. simpl.
    assert (E : List.filter is_len (items 0 n) = []).
    { generalize 0%nat. induction n; intros i; simpl; auto. }
    rewrite E. simpl. lia. }
  destruct (first_flagged_or_none (buf_lines buf) Hret)
    as [Hnone|(pre & post & l & Hlines & Hpre & Hl)].
  - eexists _, _. split; [by apply scan_none|apply Hcount].
  - eexists _, _. split; [by eapply scan_first|apply Hcount].
Qed.

(** A line that decodes is tested without an exception. *)
Lemma decoded_test_returns (line : string) :
  test_returns v bindeval (Decoded line).
Proof.
  unfold test_returns, has_trailing_ws. by destruct (Py.last_char line).
Qed.

End Scan.

(** C10. The scan does not survive every line: for a line that does not
    decode, in an editor without [bindeval] and under Python 3, the handler
    looks for the last character of a string in the bytes [bws], which
    raises [TypeError]. The scan of a buffer that holds such a line raises,
    [trailing_whitespace] raises with it and stores nothing but the default
    entry, so that the next call scans and raises again. The guard of the
    other branch does hold: an empty line that decodes is not flagged. *)
Theorem scan_raises_on_undecodable_line :
  TrailingWhitespace.has_trailing_ws Py3 false Examples.undecodable_line =
    Raise TypeError
  /\ TrailingWhitespace.scan Py3 false (VInt 1)
       (Examples.mkbuf 1 [Examples.undecodable_line]) [] =
       (Raise TypeError, [EvLen (VInt 1); EvItem (VInt 1) 0])
  /\ (let call := TrailingWhitespace.trailing_whitespace Py3
                    (Examples.without_bindeval 1) Examples.undecodable1 in
      (call Examples.fresh_state).1 = Raise TypeError
      /\ entry_of (call Examples.fresh_state).2 (VInt 1) = (0, Absent)
      /\ (call (call Examples.fresh_state).2).1 = Raise TypeError
      /\ TrailingWhitespace.scans
           (buffer_log (call (call Examples.fresh_state).2).2) = 2%nat)
  /\ (forall (v : PyVersion) (bindeval : bool),
        TrailingWhitespace.has_trailing_ws v bindeval (Decoded EmptyString) =
          Ok false).
Proof.
  split; [reflexivity|]. split; [reflexivity|].
  split; [|reflexivity].
  cbv zeta. split; [reflexivity|]. split; [reflexivity|].
  split; reflexivity.
Qed.

(** ** trailing_whitespace: which lines are flagged *)

Lemma char_in_bws (c : ascii) :
  Py.char_in c TrailingWhitespace.bws = true
  <-> c = " "%char \/ c = Ascii.ascii_of_nat 9.
Proof.
  unfold Py.char_in, TrailingWhitespace.bws. simpl.
  rewrite !orb_true_iff, !Ascii.eqb_eq. intuition discriminate.
Qed.

(** Under Python 2 a line that decodes is flagged exactly when its last
    character is a space or a tab. *)
Lemma has_trailing_ws_python2 (bindeval : bool) (line : string) :
  TrailingWhitespace.has_trailing_ws Py2 bindeval (Decoded line) = Ok true
  <-> exists c : ascii,
        Py.last_char line = Some c
        /\ (c = " "%char \/ c = Ascii.ascii_of_nat 9).
Proof.
  unfold TrailingWhitespace.has_trailing_ws.
  destruct (Py.last_char line) as [c|].
  - change (TrailingWhitespace.sws Py2) with TrailingWhitespace.bws.
    split.
    + intros [= H]. apply char_in_bws in H. eauto.
    + intros (c' & [= <-] & H). apply char_in_bws in H. by rewrite H.
  - split; [discriminate|]. by intros (c' & [=] & _).
Qed.

(** C3. Under Python 3 the line is not tested against space and tab:
    [str(bws)] is the six characters of the [repr] of the bytes, and a line
    is flagged when its last character is one of them. The line ["cat"] is
    flagged, and a buffer that holds only this line is reported at line 1;
    a line that ends in a tab is not flagged. *)
Theorem has_trailing_ws_python3_tests_repr (bindeval : bool) :
  TrailingWhitespace.sws Py3 = "b' \t'"
  /\ TrailingWhitespace.has_trailing_ws Py3 bindeval (Decoded "cat") = Ok true
  /\ TrailingWhitespace.has_trailing_ws Py3 bindeval
       (Decoded (String.append "x" Examples.tab_char)) = Ok false
  /\ TrailingWhitespace.scan Py3 bindeval (VInt 1)
       (Examples.mkbuf 1 [Decoded "cat"]) [] =
       (Ok (Parts [{| contents := "1";
                      highlight_group := ["trailing_whitespace"; "warning"];
                      divider_highlight_group := None;
                      gradient_level := None |}]),
        [EvLen (VInt 1); EvItem (VInt 1) 0]).
Proof. repeat split. Qed.

(** ** trailing_whitespace: the cache *)

Section Cache.

Import TrailingWhitespace.

Variable v : PyVersion.

(** The counter of the call equals the one of the entry: the value of the
    entry is returned and the buffer is not touched. *)
Lemma trailing_whitespace_hit (vim : Vim) (segment_info : gmap string value)
    (st : state) (k : value) :
  segment_info !! "bufnr" = Some k ->
  getbufvar_changedtick vim k = (entry_of st k).1 ->
  exists st' : state,
    trailing_whitespace v vim segment_info st = (Ok (entry_of st k).2, st')
    /\ buffer_log st' = buffer_log st
    /\ entry_of st' k = entry_of st k.
Proof.
  intros Hk Htick. unfold trailing_whitespace, entry_of, defaultdict_getitem in *.
  rewrite Hk.
  destruct (the_cache st !! k) as [[t r]|] eqn:Hentry; simpl in *.
  - rewrite Htick, Z.eqb_refl. eexists. split; [reflexivity|]. simpl.
    split; [reflexivity|]. unfold the_cache at 1. simpl. by rewrite Hentry.
  - rewrite Htick. simpl. eexists. split; [reflexivity|]. simpl.
    split; [reflexivity|]. unfold the_cache at 1. simpl.
    by rewrite lookup_insert_eq.
Qed.

(** The counter of the call differs from the one of the entry: the buffer
    is scanned once, and when the test raises on none of its lines the
    counter and the result are stored. *)
Lemma trailing_whitespace_miss (vim : Vim) (segment_info : gmap string value)
    (st : state) (k : value) (buf : buffer) :
  segment_info !! "bufnr" = Some k ->
  segment_info !! "buffer" = Some (VBuffer buf) ->
  buf_lines buf <> [] ->
  Forall (test_returns v (has_bindeval vim)) (buf_lines buf) ->
  getbufvar_changedtick vim k <> (entry_of st k).1 ->
  exists (ret : fragment) (log' : list event),
    scan v (has_bindeval vim) k buf (buffer_log st) = (Ok ret, log')
    /\ scans log' = S (scans (buffer_log st))
    /\ trailing_whitespace v vim segment_info st =
         (Ok ret,
          {| trailing_whitespace_cache :=
               Some (<[k := (getbufvar_changedtick vim k, ret)]> (the_cache st));
             buffer_log := log' |}).
Proof.
  intros Hk Hbuf Hne Hret Htick.
  destruct (scan_returns v (has_bindeval vim) k buf (buffer_log st) Hne Hret)
    as (ret & log' & Hscan & Hcount).
  exists ret, log'. split; [exact Hscan|]. split; [exact Hcount|].
  unfold trailing_whitespace, entry_of, defaultdict_getitem in *.
  rewrite Hk.
  destruct (the_cache st !! k) as [[t r]|] eqn:Hentry; simpl in *.
  - destruct (Z.eqb_spec t (getbufvar_changedtick vim k)); [congruence|].
    rewrite Hbuf, Hscan. reflexivity.
  - destruct (getbufvar_changedtick vim k) as [|p|p]; [congruence| |];
      rewrite Hbuf, Hscan; by rewrite insert_insert_eq.
Qed.

(** The scans of a sequence of calls for one buffer are the changes of
    the counter, counted from the counter of the entry. *)
Lemma trailing_whitespace_calls_scans (k : value)
    (calls : list (Vim * gmap string value)) :
  Forall (call_for v k) calls ->
  forall st : state,
    scans (buffer_log (trailing_whitespace_calls v calls st).2) =
      (scans (buffer_log st) + changes (entry_of st k).1 (counters k calls))%nat.
Proof.
  induction 1 as [|[vim si] rest [Hk (buf & Hbuf & Hne & Hret)] _ IH];
    intros st.
  - simpl. lia.
  - simpl in Hk, Hbuf, Hret. simpl.
    destruct (Z.eqb_spec (getbufvar_changedtick vim k) (entry_of st k).1)
      as [Heq|Hneq].
    + destruct (trailing_whitespace_hit vim si st k Hk Heq)
        as (st' & -> & Hlog & Hentry).
      specialize (IH st').
      destruct (trailing_whitespace_calls v rest st') as [rs st'']. simpl in *.
      rewrite IH, Hlog, Hentry, Heq. reflexivity.
    + destruct (trailing_whitespace_miss vim si st k buf Hk Hbuf Hne Hret Hneq)
        as (ret & log' & _ & Hcount & ->).
      match goal with |- context [trailing_whitespace_calls v rest ?s] =>
        specialize (IH s); destruct (trailing_whitespace_calls v rest s)
          as [rs st''] end.
      simpl in *. rewrite IH, Hcount. unfold entry_of, the_cache. simpl.
      rewrite lookup_insert_eq. simpl. lia.
Qed.

End Cache.

(** In a sequence of counters that never decrease, the changes after the
    first one are the distinct values but one. *)
Lemma changes_sorted (t : Z) (ticks : list Z) :
  Sorted Z.le (t :: ticks) ->
  S (changes t ticks) = length (remove_dups (t :: ticks)).
Proof.
  revert t. induction ticks as [|u ticks IH]; intros t Hsorted; [reflexivity|].
  assert (Hall : Forall (Z.le t) (u :: ticks)).
  { apply Sorted_extends in Hsorted; [exact Hsorted|].
    intros x y z. apply Z.le_trans. }
  apply Sorted_inv in Hsorted as [Hsorted _].
  specialize (IH u Hsorted).
  cbn [changes]. change (remove_dups (t :: u :: ticks)) with
    (if decide_rel elem_of t (u :: ticks) then remove_dups (u :: ticks)
     else t :: remove_dups (u :: ticks)).
  destruct (Z.eqb_spec u t) as [->|Hne].
  - destruct (decide_rel elem_of t (t :: ticks)) as [_|Hnot]; [exact IH|].
    exfalso. apply Hnot. set_solver.
  - destruct (decide_rel elem_of t (u :: ticks)) as [Hin|_].
    + exfalso.
      assert (Hu : Forall (Z.le u) ticks).
      { apply Sorted_extends in Hsorted; [exact Hsorted|].
        intros x y z. apply Z.le_trans. }
      inversion Hall; subst.
      apply elem_of_cons in Hin as [->|Hin]; [congruence|].
      rewrite Forall_forall in Hu. specialize (Hu t Hin). lia.
    + change (S (S (changes u ticks)) = S (length (remove_dups (u :: ticks)))).
      by rewrite <- IH.
Qed.

(** C1, as amended. A call whose counter equals the counter of the entry of
    its buffer returns the value of that entry without scanning; a call
    whose counter differs from it, or that finds no entry and has a counter
    other than 0, scans the buffer once and, the test raising on none of
    its lines (as when every line decodes), stores the counter with the
    result and returns the result. Hence, for calls on one buffer that has
    no entry at first, whose counters are not 0 and never decrease, and on
    whose lines the test does not raise, the buffer is scanned once per
    distinct value of the counter. *)
Theorem trailing_whitespace_scans_once_per_counter
    (v : PyVersion) (k : value)
    (calls : list (Vim * gmap string value)) (st : state) :
  TrailingWhitespace.the_cache st !! k = None ->
  Forall (call_for v k) calls ->
  Forall (fun t => t <> 0) (counters k calls) ->
  Sorted Z.le (counters k calls) ->
  TrailingWhitespace.scans
    (buffer_log (trailing_whitespace_calls v calls st).2) =
    (TrailingWhitespace.scans (buffer_log st)
     + length (remove_dups (counters k calls)))%nat
  /\ (forall (vim : Vim) (segment_info : gmap string value) (st0 : state)
             (t : Z) (r : fragment),
        segment_info !! "bufnr" = Some k ->
        TrailingWhitespace.the_cache st0 !! k = Some (t, r) ->
        getbufvar_changedtick vim k = t ->
        exists st' : state,
          TrailingWhitespace.trailing_whitespace v vim segment_info st0 =
            (Ok r, st')
          /\ buffer_log st' = buffer_log st0
          /\ TrailingWhitespace.the_cache st' !! k = Some (t, r))
  /\ (forall (vim : Vim) (segment_info : gmap string value) (st0 : state)
             (buf : buffer),
        segment_info !! "bufnr" = Some k ->
        segment_info !! "buffer" = Some (VBuffer buf) ->
        buf_lines buf <> [] ->
        Forall (test_returns v (has_bindeval vim)) (buf_lines buf) ->
        (TrailingWhitespace.the_cache st0 !! k = None
         /\ getbufvar_changedtick vim k <> 0)
        \/ (exists (t : Z) (r : fragment),
              TrailingWhitespace.the_cache st0 !! k = Some (t, r)
              /\ getbufvar_changedtick vim k <> t) ->
        exists (ret : fragment) (log' : list event),
          TrailingWhitespace.scan v (has_bindeval vim) k buf (buffer_log st0) =
            (Ok ret, log')
          /\ TrailingWhitespace.scans log' =
               S (TrailingWhitespace.scans (buffer_log st0))
          /\ TrailingWhitespace.trailing_whitespace v vim segment_info st0 =
               (Ok ret,
                {| trailing_whitespace_cache :=
                     Some (<[k := (getbufvar_changedtick vim k, ret)]>
                             (TrailingWhitespace.the_cache st0));
                   buffer_log := log' |})).
Proof.
  intros Hnone Hcalls Hnonzero Hsorted.
  split; [|split].
  - rewrite (trailing_whitespace_calls_scans v k calls Hcalls st).
    f_equal. unfold entry_of. rewrite Hnone. simpl.
    destruct (counters k calls) as [|t ticks]; [reflexivity|].
    inversion Hnonzero; subst. cbn [changes].
    destruct (Z.eqb_spec t 0); [contradiction|].
    by apply changes_sorted.
  - intros vim si st0 t r Hk Hentry Htick.
    destruct (trailing_whitespace_hit v vim si st0 k Hk) as (st' & Hcall & Hlog & He).
    { unfold entry_of. rewrite Hentry. exact Htick. }
    unfold entry_of in Hcall. rewrite Hentry in Hcall. simpl in Hcall.
    exists st'. split; [exact Hcall|]. split; [exact Hlog|].
    revert Hcall. unfold TrailingWhitespace.trailing_whitespace,
      defaultdict_getitem. rewrite Hk, Hentry. simpl.
    rewrite Htick, Z.eqb_refl. intros [= <-]. exact Hentry.
  - intros vim si st0 buf Hk Hbuf Hne Hret Hdiff.
    apply (trailing_whitespace_miss v vim si st0 k buf Hk Hbuf Hne Hret).
    unfold entry_of.
    destruct Hdiff as [[-> Hz]|(t & r & -> & Ht)]; exact Hz || exact Ht.
Qed.

Lemma trailing_whitespace_scans_once_per_counter_witness :
  TrailingWhitespace.scans
    (buffer_log
       (trailing_whitespace_calls Py2 Examples.calls_1_1_2
          Examples.fresh_state).2) =
    (TrailingWhitespace.scans (buffer_log Examples.fresh_state)
     + length (remove_dups (counters (VInt 1) Examples.calls_1_1_2)))%nat.
Proof.
  apply (trailing_whitespace_scans_once_per_counter Py2 (VInt 1)
           Examples.calls_1_1_2 Examples.fresh_state).
  - reflexivity.
  - assert (H : forall t, call_for Py2 (VInt 1) (Examples.at_tick t, Examples.buffer1)).
    { intros t. split; [reflexivity|].
      exists (Examples.mkbuf 1 [Decoded "x "]).
      split; [reflexivity|]. split; [discriminate|].
      constructor; [exact I|constructor]. }
    constructor; [apply H|]. constructor; [apply H|].
    constructor; [apply H|]. constructor.
  - constructor; [discriminate|]. constructor; [discriminate|].
    constructor; [discriminate|]. constructor.
  - constructor; [|constructor; simpl; lia].
    constructor; [|constructor; simpl; lia].
    constructor; constructor.
Defined.

(** C1, as stated, fails twice. A first call for a buffer whose counter is
    0 finds no entry and yet scans nothing: it returns [None] although the
    scan would report line 1. And for the counters 1, 2, 1 the buffer is
    scanned three times, for two distinct values. *)
Lemma trailing_whitespace_default_entry_and_returning_counter :
  (let call := TrailingWhitespace.trailing_whitespace Py2
                 (Examples.at_tick 0) Examples.buffer1 Examples.fresh_state in
   TrailingWhitespace.the_cache Examples.fresh_state !! VInt 1 = None
   /\ call.1 = Ok Absent
   /\ TrailingWhitespace.scans (buffer_log call.2) = 0%nat
   /\ (TrailingWhitespace.scan Py2 true (VInt 1)
         (Examples.mkbuf 1 [Decoded "x "]) []).1 <> Ok Absent)
  /\ (TrailingWhitespace.scans
        (buffer_log
           (trailing_whitespace_calls Py2 Examples.calls_1_2_1
              Examples.fresh_state).2) = 3%nat
      /\ length (remove_dups (counters (VInt 1) Examples.calls_1_2_1)) = 2%nat).
Proof.
  split.
  - simpl. split; [reflexivity|]. split; [vm_compute; reflexivity|].
    split; [vm_compute; reflexivity|]. vm_compute. discriminate.
  - split; vm_compute; reflexivity.
Qed.

(** * Further properties *)

(** ** Listers: the contexts are new objects *)

Lemma insert_fresh_none (h : gmap nat (gmap string value))
    (d : gmap string value) (l : nat) :
  <[fresh (dom h) := d]> h !! l = None -> h !! l = None /\ l <> fresh (dom h).
Proof.
  intros H. apply lookup_insert_None in H as [H1 H2]. split; [exact H1|congruence].
Qed.

Lemma tablister_pairs_fresh (cur : tabpage) (tabpages : list tabpage) :
  forall (h : gmap nat (gmap string value)) (base : nat)
         (d : gmap string value),
    h !! base = Some d ->
    exists (h' : gmap nat (gmap string value)) (pairs : list (nat * override)),
      tablister_pairs h base cur tabpages = Some (h', pairs)
      /\ Forall (fun p => h !! p.1 = None /\ is_Some (h' !! p.1)) pairs
      /\ NoDup (map fst pairs)
      /\ (forall (l : nat) (x : gmap string value),
            h !! l = Some x -> h' !! l = Some x)
      /\ length pairs = length tabpages.
Proof.
  induction tabpages as [|T rest IH]; intros h base d Hbase.
  - exists h, []. simpl. repeat split; auto; constructor.
  - simpl. rewrite (tabpage_updated_segment_info_eq h base d T Hbase). simpl.
    set (c := fresh (dom h)).
    set (d1 := set_items (tabpage_items T) d).
    destruct (IH (<[c := d1]> h) base d (insert_fresh_keeps h d1 base d Hbase))
      as (h' & pairs & Heq & Hnew & Hnodup & Hkeep & Hlen).
    rewrite Heq. simpl. eexists _, _. split; [reflexivity|].
    assert (Hc : h' !! c = Some d1) by (apply Hkeep; by rewrite lookup_insert_eq).
    split; [|split; [|split]].
    + constructor.
      * simpl. split; [apply fresh_unused|by rewrite Hc].
      * eapply Forall_impl; [exact Hnew|]. intros p [Hp Hp'].
        split; [|exact Hp']. by apply insert_fresh_none in Hp as [Hp _].
    + simpl. constructor; [|exact Hnodup].
      intros Hin. apply list_elem_of_fmap in Hin as (p & Hp & Hin).
      rewrite Forall_forall in Hnew. destruct (Hnew p Hin) as [Hnone _].
      apply insert_fresh_none in Hnone as [_ Hne]. by apply Hne.
    + intros l x Hl. apply Hkeep. by apply insert_fresh_keeps.
    + simpl. by rewrite Hlen.
Qed.

(** X1. The contexts that [tablister] lists are new dictionaries: their
    references were not in use before the call, they differ from one
    another and from the base context, there is one per tab page, and every
    dictionary that existed before the call is as it was. *)
Theorem tablister_contexts_are_new
    (vim : Vim) (h : gmap nat (gmap string value)) (base : nat)
    (d : gmap string value) :
  h !! base = Some d ->
  exists (h' : gmap nat (gmap string value)) (pairs : list (nat * override)),
    tablister vim h base = Some (h', pairs)
    /\ length pairs = length (list_tabpages vim)
    /\ NoDup (map fst pairs)
    /\ Forall (fun p => h !! p.1 = None /\ p.1 <> base /\ is_Some (h' !! p.1)) pairs
    /\ (forall (l : nat) (x : gmap string value),
          h !! l = Some x -> h' !! l = Some x).
Proof.
  intros Hbase. unfold tablister.
  destruct (tablister_pairs_fresh (current_tabpage vim) (list_tabpages vim)
              h base d Hbase) as (h' & pairs & Heq & Hnew & Hnodup & Hkeep & Hlen).
  exists h', pairs. split; [exact Heq|]. split; [exact Hlen|].
  split; [exact Hnodup|]. split; [|exact Hkeep].
  eapply Forall_impl; [exact Hnew|]. intros p [Hp Hp'].
  split; [exact Hp|]. split; [|exact Hp']. intros E. rewrite E in Hp. congruence.
Qed.

Lemma tablister_contexts_are_new_witness :
  exists (h' : gmap nat (gmap string value)) (pairs : list (nat * override)),
    tablister Examples.three_tabs Examples.one_context 0 = Some (h', pairs)
    /\ length pairs = length (list_tabpages Examples.three_tabs)
    /\ NoDup (map fst pairs)
    /\ Forall (fun p => Examples.one_context !! p.1 = None /\ p.1 <> 0%nat
                        /\ is_Some (h' !! p.1)) pairs
    /\ (forall (l : nat) (x : gmap string value),
          Examples.one_context !! l = Some x -> h' !! l = Some x).
Proof.
  apply (tablister_contexts_are_new Examples.three_tabs Examples.one_context 0
           Examples.base_context).
  vm_compute. reflexivity.
Defined.

(** ** bufferlister *)

(** X2. Deriving the context of a buffer from a base context: the result is
    a new dictionary, the base dictionary and every other one are as
    before, the new one holds the buffer and its number, [None] under
    [window], [winnr] and [window_id], and under every other key (the tab
    page among them) what the base dictionary holds. *)
Theorem buffer_updated_segment_info_copies
    (h : gmap nat (gmap string value)) (base : nat)
    (d : gmap string value) (b : buffer) :
  h !! base = Some d ->
  exists (h' : gmap nat (gmap string value)) (c : nat)
         (d' : gmap string value),
    buffer_updated_segment_info h base b = Some (h', c)
    /\ h !! c = None
    /\ h' !! base = Some d
    /\ (forall l : nat, l <> c -> h' !! l = h !! l)
    /\ h' !! c = Some d'
    /\ d' !! "window" = Some VNone
    /\ d' !! "winnr" = Some VNone
    /\ d' !! "window_id" = Some VNone
    /\ d' !! "buffer" = Some (VBuffer b)
    /\ d' !! "bufnr" = Some (VInt (buf_number b))
    /\ (forall k : string,
          k ∉ ["window"; "winnr"; "window_id"; "buffer"; "bufnr"] ->
          d' !! k = d !! k).
Proof.
  intros Hbase.
  eexists _, _, _.
  split; [exact (buffer_updated_segment_info_eq h base d b Hbase)|].
  split; [apply fresh_unused|].
  split; [by apply insert_fresh_keeps|].
  split; [intros l Hl; by rewrite lookup_insert_ne|].
  split; [by rewrite lookup_insert_eq|].
  unfold set_items, buffer_items; simpl.
  repeat (split; [by simplify_map_eq|]).
  intros k Hk.
  repeat (rewrite lookup_insert_ne; [|intros <-; apply Hk; set_solver]).
  reflexivity.
Qed.

Lemma buffer_updated_segment_info_copies_witness :
  exists (h' : gmap nat (gmap string value)) (c : nat)
         (d' : gmap string value),
    buffer_updated_segment_info Examples.one_context 0
      (Examples.mkbuf 2 [Decoded "text"]) = Some (h', c)
    /\ Examples.one_context !! c = None
    /\ h' !! 0%nat = Some Examples.base_context
    /\ (forall l : nat, l <> c -> h' !! l = Examples.one_context !! l)
    /\ h' !! c = Some d'
    /\ d' !! "window" = Some VNone
    /\ d' !! "winnr" = Some VNone
    /\ d' !! "window_id" = Some VNone
    /\ d' !! "buffer" = Some (VBuffer (Examples.mkbuf 2 [Decoded "text"]))
    /\ d' !! "bufnr" = Some (VInt (buf_number (Examples.mkbuf 2 [Decoded "text"])))
    /\ (forall k : string,
          k ∉ ["window"; "winnr"; "window_id"; "buffer"; "bufnr"] ->
          d' !! k = Examples.base_context !! k).
Proof.
  apply (buffer_updated_segment_info_copies Examples.one_context 0
           Examples.base_context (Examples.mkbuf 2 [Decoded "text"])).
  vm_compute. reflexivity.
Defined.

Lemma bufferlister_pairs_listed (cur : buffer) (buffers : list buffer) :
  forall (h : gmap nat (gmap string value)) (base : nat)
         (d : gmap string value),
    h !! base = Some d ->
    exists (h' : gmap nat (gmap string value)) (pairs : list (nat * override)),
      bufferlister_pairs h base cur buffers = Some (h', pairs)
      /\ (forall (l : nat) (x : gmap string value),
            h !! l = Some x -> h' !! l = Some x)
      /\ Forall2 (listed_for_buffer cur h') buffers pairs
      /\ Forall (fun p => h !! p.1 = None) pairs
      /\ NoDup (map fst pairs).
Proof.
  induction buffers as [|b rest IH]; intros h base d Hbase.
  - exists h, []. simpl. repeat split; auto; constructor.
  - simpl. rewrite (buffer_updated_segment_info_eq h base d b Hbase). simpl.
    set (c := fresh (dom h)).
    set (d1 := set_items (buffer_items b) d).
    destruct (IH (<[c := d1]> h) base d (insert_fresh_keeps h d1 base d Hbase))
      as (h' & pairs & Heq & Hkeep & Hrest & Hnew & Hnodup).
    rewrite Heq. simpl. eexists _, _. split; [reflexivity|].
    split; [|split; [|split]].
    + intros l x Hl. apply Hkeep. by apply insert_fresh_keeps.
    + constructor; [|exact Hrest].
      split; [reflexivity|]. split; [reflexivity|].
      exists d1. simpl.
      split; [apply Hkeep; by rewrite lookup_insert_eq|].
      unfold d1, set_items, buffer_items; simpl.
      repeat split; by simplify_map_eq.
    + constructor; [apply fresh_unused|].
      eapply Forall_impl; [exact Hnew|]. intros p Hp.
      by apply insert_fresh_none in Hp as [Hp _].
    + simpl. constructor; [|exact Hnodup].
      intros Hin. apply list_elem_of_fmap in Hin as (p & Hp & Hin).
      rewrite Forall_forall in Hnew. specialize (Hnew p Hin).
      apply insert_fresh_none in Hnew as [_ Hne]. by apply Hne.
Qed.

(** X3. [bufferlister] returns one pair per buffer, in the order of
    [vim.buffers]: the pair of buffer [b] has [priority_multiplier] equal to
    [1 + 0.001 * abs(b.number - cur.number)], its mode is ['tab'] for the
    current buffer and ['nc'] for the others, and its context is a new
    dictionary that holds [b], its number and no window. The contexts are
    distinct objects and the base context is as it was. *)
Theorem bufferlister_order_and_multipliers
    (vim : Vim) (h : gmap nat (gmap string value)) (base : nat)
    (d : gmap string value) :
  h !! base = Some d ->
  exists (h' : gmap nat (gmap string value)) (pairs : list (nat * override)),
    bufferlister vim h base = Some (h', pairs)
    /\ h' !! base = Some d
    /\ Forall2 (listed_for_buffer (vim_current_buffer vim) h')
         (vim_buffers vim) pairs
    /\ Forall (fun p => h !! p.1 = None) pairs
    /\ NoDup (map fst pairs).
Proof.
  intros Hbase. unfold bufferlister.
  destruct (bufferlister_pairs_listed (vim_current_buffer vim) (vim_buffers vim)
              h base d Hbase) as (h' & pairs & Heq & Hkeep & Hall & Hnew & Hnodup).
  exists h', pairs. repeat split; auto.
Qed.

Lemma bufferlister_order_and_multipliers_witness :
  exists (h' : gmap nat (gmap string value)) (pairs : list (nat * override)),
    bufferlister Examples.one_tab Examples.one_context 0 = Some (h', pairs)
    /\ h' !! 0%nat = Some Examples.base_context
    /\ Forall2 (listed_for_buffer (vim_current_buffer Examples.one_tab) h')
         (vim_buffers Examples.one_tab) pairs
    /\ Forall (fun p => Examples.one_context !! p.1 = None) pairs
    /\ NoDup (map fst pairs).
Proof.
  apply (bufferlister_order_and_multipliers Examples.one_tab
           Examples.one_context 0 Examples.base_context).
  vm_compute. reflexivity.
Defined.

(** X4. [tabbuflister] lists the buffers when exactly one tab page is open
    and the tab pages otherwise: it returns as many pairs as there are
    buffers in the first case and as there are tab pages in the second, and
    with no tab page at all it returns the empty list and allocates
    nothing. The base context is as it was. *)
Theorem tabbuflister_length
    (vim : Vim) (h : gmap nat (gmap string value)) (base : nat)
    (d : gmap string value) :
  h !! base = Some d ->
  exists (h' : gmap nat (gmap string value)) (pairs : list (nat * override)),
    tabbuflister vim h base = Some (h', pairs)
    /\ h' !! base = Some d
    /\ length pairs =
         (if decide (length (list_tabpages vim) = 1%nat)
          then length (vim_buffers vim) else length (list_tabpages vim))
    /\ (list_tabpages vim = [] -> pairs = [] /\ h' = h).
Proof.
  intros Hbase. unfold tabbuflister.
  destruct (decide (length (list_tabpages vim) = 1%nat)) as [Hone|Hmore].
  - destruct (bufferlister_pairs_listed (vim_current_buffer vim)
                (vim_buffers vim) h base d Hbase)
      as (h' & pairs & Heq & Hkeep & Hall & _).
    exists h', pairs. split; [exact Heq|]. split; [by apply Hkeep|].
    split; [symmetry; by eapply Forall2_length|].
    intros Hnil. rewrite Hnil in Hone. discriminate.
  - destruct (tablister_pairs_fresh (current_tabpage vim) (list_tabpages vim)
                h base d Hbase)
      as (h' & pairs & Heq & _ & _ & Hkeep & Hlen).
    exists h', pairs. split; [exact Heq|]. split; [by apply Hkeep|].
    split; [exact Hlen|].
    intros Hnil. unfold tablister in Heq. rewrite Hnil in Heq.
    simpl in Heq. by injection Heq as <- <-.
Qed.

Lemma tabbuflister_length_witness :
  exists (h' : gmap nat (gmap string value)) (pairs : list (nat * override)),
    tabbuflister Examples.one_tab Examples.one_context 0 = Some (h', pairs)
    /\ h' !! 0%nat = Some Examples.base_context
    /\ length pairs =
         (if decide (length (list_tabpages Examples.one_tab) = 1%nat)
          then length (vim_buffers Examples.one_tab)
          else length (list_tabpages Examples.one_tab))
    /\ (list_tabpages Examples.one_tab = [] -> pairs = [] /\ h' = Examples.one_context).
Proof.
  apply (tabbuflister_length Examples.one_tab Examples.one_context 0
           Examples.base_context).
  vm_compute. reflexivity.
Defined.

(** X5. The multiplier depends on the distance alone: two pairs of numbers
    at the same distance have the same multiplier. So it is the same for
    [a] seen from [b] and for [b] seen from [a], and it is [1.0] for the
    current tab page or buffer itself. *)
Theorem multiplier_by_distance (a b a' b' : Z) :
  Z.abs (a - b) = Z.abs (a' - b') ->
  multiplier a b = multiplier a' b'
  /\ multiplier a b = multiplier b a
  /\ multiplier a a = 1%float.
Proof.
  intros Hdist. unfold multiplier. split; [|split].
  - by rewrite Hdist.
  - replace (b - a) with (- (a - b)) by lia. by rewrite Z.abs_opp.
  - rewrite Z.sub_diag. reflexivity.
Qed.

Lemma multiplier_by_distance_witness :
  multiplier 1 3 = multiplier 7 5
  /\ multiplier 1 3 = multiplier 3 1
  /\ multiplier 1 1 = 1%float.
Proof.
  apply (multiplier_by_distance 1 3 7 5). reflexivity.
Defined.

(** ** tabnr *)

(** X6. On the contexts that [tablister] derives, the [tabnr] segment with
    [show_current] left false gives the number of every tab page but the
    current one, for which it gives [None]; with [show_current] true it
    gives the number of every tab page. *)
Theorem tabnr_on_listed_contexts
    (str_of_object : value -> string) (vim : Vim)
    (h : gmap nat (gmap string value)) (base : nat) (d : gmap string value) :
  h !! base = Some d ->
  exists (h' : gmap nat (gmap string value)) (pairs : list (nat * override)),
    tablister vim h base = Some (h', pairs)
    /\ Forall2
         (fun T p =>
            exists d' : gmap string value,
              h' !! p.1 = Some d'
              /\ tabnr str_of_object vim d' false =
                   (if decide (tab_number T = tab_number (current_tabpage vim))
                    then Absent else Text (Py.str_of_int (tab_number T)))
              /\ tabnr str_of_object vim d' true =
                   Text (Py.str_of_int (tab_number T)))
         (list_tabpages vim) pairs.
Proof.
  intros Hbase. unfold tablister.
  destruct (tablister_pairs_listed (current_tabpage vim) (list_tabpages vim)
              h base d Hbase) as (h' & pairs & Heq & _ & Hall & _).
  exists h', pairs. split; [exact Heq|].
  eapply Forall2_impl; [exact Hall|].
  intros T p (_ & _ & d' & Hd' & _ & Hnr).
  exists d'. split; [exact Hd'|]. unfold tabnr. rewrite Hnr. simpl.
  split; [|reflexivity].
  destruct (decide (tab_number T = tab_number (current_tabpage vim))) as [->|Hne].
  - by rewrite bool_decide_eq_true_2.
  - rewrite bool_decide_eq_false_2; [reflexivity|congruence].
Qed.

Lemma tabnr_on_listed_contexts_witness :
  exists (h' : gmap nat (gmap string value)) (pairs : list (nat * override)),
    tablister Examples.three_tabs Examples.one_context 0 = Some (h', pairs)
    /\ Forall2
         (fun T p =>
            exists d' : gmap string value,
              h' !! p.1 = Some d'
              /\ tabnr (fun _ => "object") Examples.three_tabs d' false =
                   (if decide (tab_number T =
                               tab_number (current_tabpage Examples.three_tabs))
                    then Absent else Text (Py.str_of_int (tab_number T)))
              /\ tabnr (fun _ => "object") Examples.three_tabs d' true =
                   Text (Py.str_of_int (tab_number T)))
         (list_tabpages Examples.three_tabs) pairs.
Proof.
  apply (tabnr_on_listed_contexts (fun _ => "object") Examples.three_tabs
           Examples.one_context 0 Examples.base_context).
  vm_compute. reflexivity.
Defined.

(** ** trailing_whitespace: the cache, further *)

(** The cache after a call, whatever the call returns or raises. *)
Lemma trailing_whitespace_cache_after (v : PyVersion) (vim : Vim)
    (segment_info : gmap string value) (st : state) :
  let st' := (TrailingWhitespace.trailing_whitespace v vim segment_info st).2 in
  match segment_info !! "bufnr" with
  | None => TrailingWhitespace.the_cache st' = TrailingWhitespace.the_cache st
  | Some k =>
      exists e : Z * fragment,
        TrailingWhitespace.the_cache st' =
          <[k := e]> (TrailingWhitespace.the_cache st)
  end.
Proof.
  unfold TrailingWhitespace.trailing_whitespace, defaultdict_getitem.
  destruct (segment_info !! "bufnr") as [k|]; [|reflexivity].
  destruct (TrailingWhitespace.the_cache st !! k) as [e|] eqn:He;
    cbn [fst snd].
  - destruct (e.1 =? getbufvar_changedtick vim k).
    { exists e. cbn. by rewrite insert_id. }
    destruct (segment_info !! "buffer") as [[]|];
      try (exists e; cbn; by rewrite insert_id).
    destruct (TrailingWhitespace.scan _ _ _ _ _) as [[ret|x] log'].
    + eexists. cbn. reflexivity.
    + exists e. cbn. by rewrite insert_id.
  - destruct (0 =? getbufvar_changedtick vim k).
    { eexists. cbn. reflexivity. }
    destruct (segment_info !! "buffer") as [[]|];
      try (eexists; cbn; reflexivity).
    destruct (TrailingWhitespace.scan _ _ _ _ _) as [[ret|x] log'].
    + eexists. cbn. by rewrite insert_insert_eq.
    + eexists. cbn. reflexivity.
Qed.

(** X7. A call for one buffer leaves the entries of all other buffers as
    they are, whether it returns or raises. *)
Theorem trailing_whitespace_other_buffers_kept
    (v : PyVersion) (vim : Vim) (segment_info : gmap string value)
    (st : state) (k : value) :
  segment_info !! "bufnr" <> Some k ->
  TrailingWhitespace.the_cache
    (TrailingWhitespace.trailing_whitespace v vim segment_info st).2 !! k =
  TrailingWhitespace.the_cache st !! k.
Proof.
  intros Hk.
  pose proof (trailing_whitespace_cache_after v vim segment_info st) as H.
  simpl in H. destruct (segment_info !! "bufnr") as [k'|].
  - destruct H as [e ->]. rewrite lookup_insert_ne; [reflexivity|congruence].
  - by rewrite H.
Qed.

Lemma trailing_whitespace_other_buffers_kept_witness :
  TrailingWhitespace.the_cache
    (TrailingWhitespace.trailing_whitespace Py2 (Examples.at_tick 1)
       Examples.buffer1 Examples.fresh_state).2 !! VInt 2 =
  TrailingWhitespace.the_cache Examples.fresh_state !! VInt 2.
Proof.
  apply (trailing_whitespace_other_buffers_kept Py2 (Examples.at_tick 1)
           Examples.buffer1 Examples.fresh_state (VInt 2)).
  vm_compute. discriminate.
Defined.

(** X8. Entries are never dropped: after a call the cache exists and holds
    an entry for every buffer it held one for, and for the buffer of the
    call, whether the call returns or raises. *)
Theorem trailing_whitespace_entries_stay
    (v : PyVersion) (vim : Vim) (segment_info : gmap string value)
    (st : state) :
  let st' := (TrailingWhitespace.trailing_whitespace v vim segment_info st).2 in
  is_Some (trailing_whitespace_cache st')
  /\ dom (TrailingWhitespace.the_cache st) ⊆ dom (TrailingWhitespace.the_cache st')
  /\ (forall k : value,
        segment_info !! "bufnr" = Some k ->
        k ∈ dom (TrailingWhitespace.the_cache st')).
Proof.
  intros st'.
  pose proof (trailing_whitespace_cache_after v vim segment_info st) as H.
  fold st' in H. split.
  - unfold st', TrailingWhitespace.trailing_whitespace, defaultdict_getitem.
    destruct (segment_info !! "bufnr") as [k|]; [|by eexists].
    destruct (TrailingWhitespace.the_cache st !! k) as [e|]; cbn [fst snd].
    + destruct (e.1 =? _); [by eexists|].
      destruct (segment_info !! "buffer") as [[]|]; try by eexists.
      destruct (TrailingWhitespace.scan _ _ _ _ _) as [[ret|x] log']; by eexists.
    + destruct (0 =? _); [by eexists|].
      destruct (segment_info !! "buffer") as [[]|]; try by eexists.
      destruct (TrailingWhitespace.scan _ _ _ _ _) as [[ret|x] log']; by eexists.
  - destruct (segment_info !! "bufnr") as [k|].
    + destruct H as [e ->]. split; [set_solver|].
      intros k' [= <-]. set_solver.
    + rewrite H. split; [done|]. intros k' [=].
Qed.

(** X9. A buffer object without lines makes a call that has to scan raise
    [UnboundLocalError]: the loop does not run and [has_trailing_ws] is read
    unbound. Nothing is stored for the buffer, so that the next call with
    the same counter scans, and raises, again. *)
Theorem trailing_whitespace_empty_buffer_raises
    (v : PyVersion) (vim : Vim) (segment_info : gmap string value)
    (st : state) (k : value) (buf : buffer) :
  segment_info !! "bufnr" = Some k ->
  segment_info !! "buffer" = Some (VBuffer buf) ->
  buf_lines buf = [] ->
  getbufvar_changedtick vim k <> (entry_of st k).1 ->
  let call := TrailingWhitespace.trailing_whitespace v vim segment_info in
  (call st).1 = Raise UnboundLocalError
  /\ entry_of (call st).2 k = entry_of st k
  /\ buffer_log (call st).2 = buffer_log st ++ [EvLen k]
  /\ (call (call st).2).1 = Raise UnboundLocalError
  /\ buffer_log (call (call st).2).2 = buffer_log st ++ [EvLen k; EvLen k].
Proof.
  intros Hk Hbuf Hempty Htick call.
  assert (Hstep : forall st0 : state,
            getbufvar_changedtick vim k <> (entry_of st0 k).1 ->
            TrailingWhitespace.trailing_whitespace v vim segment_info st0 =
              (Raise UnboundLocalError,
               {| trailing_whitespace_cache :=
                    Some (<[k := entry_of st0 k]> (TrailingWhitespace.the_cache st0));
                  buffer_log := buffer_log st0 ++ [EvLen k] |})).
  { intros st0 Hne. revert Hne.
    unfold TrailingWhitespace.trailing_whitespace, defaultdict_getitem, entry_of.
    rewrite Hk.
    destruct (TrailingWhitespace.the_cache st0 !! k) as [e|] eqn:He;
      simpl; intros Hne.
    - destruct (Z.eqb_spec e.1 (getbufvar_changedtick vim k)); [congruence|].
      rewrite Hbuf. unfold TrailingWhitespace.scan. rewrite Hempty. simpl.
      by rewrite insert_id.
    - destruct (getbufvar_changedtick vim k) as [|p|p]; [congruence| |];
        rewrite Hbuf; unfold TrailingWhitespace.scan; rewrite Hempty;
        reflexivity. }
  assert (Hentry : forall st0 : state,
            entry_of
              {| trailing_whitespace_cache :=
                   Some (<[k := entry_of st0 k]> (TrailingWhitespace.the_cache st0));
                 buffer_log := buffer_log st0 ++ [EvLen k] |} k = entry_of st0 k).
  { intros st0. unfold entry_of at 1, TrailingWhitespace.the_cache at 1.
    simpl. by rewrite lookup_insert_eq. }
  unfold call. rewrite (Hstep st Htick). cbn [fst snd].
  rewrite Hstep by (by rewrite Hentry). cbn [fst snd buffer_log].
  rewrite Hentry, <- app_assoc. repeat split.
Qed.

Lemma trailing_whitespace_empty_buffer_raises_witness :
  let call := TrailingWhitespace.trailing_whitespace Py3 (Examples.at_tick 1)
                Examples2.empty_buffer1 in
  (call Examples.fresh_state).1 = Raise UnboundLocalError
  /\ entry_of (call Examples.fresh_state).2 (VInt 1) =
       entry_of Examples.fresh_state (VInt 1)
  /\ buffer_log (call Examples.fresh_state).2 =
       buffer_log Examples.fresh_state ++ [EvLen (VInt 1)]
  /\ (call (call Examples.fresh_state).2).1 = Raise UnboundLocalError
  /\ buffer_log (call (call Examples.fresh_state).2).2 =
       buffer_log Examples.fresh_state ++ [EvLen (VInt 1); EvLen (VInt 1)].
Proof.
  apply (trailing_whitespace_empty_buffer_raises Py3 (Examples.at_tick 1)
           Examples2.empty_buffer1 Examples.fresh_state (VInt 1)
           (Examples.mkbuf 1 [])).
  - reflexivity.
  - reflexivity.
  - reflexivity.
  - discriminate.
Defined.

(** X10. Once a scan at counter [t] has returned and stored its result (the
    test raising on no line of the buffer), a call for the same buffer at
    counter [t] returns that result and reads nothing of the buffer,
    whatever the buffer of its context holds by then. *)
Theorem trailing_whitespace_repeated_counter_returns_stored
    (v : PyVersion) (vim1 vim2 : Vim) (first second : gmap string value)
    (st : state) (k : value) (buf : buffer) :
  first !! "bufnr" = Some k ->
  first !! "buffer" = Some (VBuffer buf) ->
  buf_lines buf <> [] ->
  Forall (test_returns v (has_bindeval vim1)) (buf_lines buf) ->
  getbufvar_changedtick vim1 k <> (entry_of st k).1 ->
  second !! "bufnr" = Some k ->
  getbufvar_changedtick vim2 k = getbufvar_changedtick vim1 k ->
  let r1 := TrailingWhitespace.trailing_whitespace v vim1 first st in
  let r2 := TrailingWhitespace.trailing_whitespace v vim2 second r1.2 in
  r1.1 = (TrailingWhitespace.scan v (has_bindeval vim1) k buf (buffer_log st)).1
  /\ r2.1 = r1.1
  /\ buffer_log r2.2 = buffer_log r1.2
  /\ entry_of r2.2 k = entry_of r1.2 k.
Proof.
  intros Hk Hbuf Hne Hret Htick Hk2 Hsame r1 r2.
  destruct (trailing_whitespace_miss v vim1 first st k buf Hk Hbuf Hne Hret
              Htick)
    as (ret & log' & Hscan & _ & Hcall).
  assert (Hentry : entry_of r1.2 k = (getbufvar_changedtick vim1 k, ret)).
  { unfold r1. rewrite Hcall. unfold entry_of, TrailingWhitespace.the_cache.
    cbn. by rewrite lookup_insert_eq. }
  destruct (trailing_whitespace_hit v vim2 second r1.2 k Hk2)
    as (st' & Hcall2 & Hlog & He).
  { by rewrite Hentry. }
  unfold r2. rewrite Hcall2. cbn [fst snd].
  split; [unfold r1; by rewrite Hcall, Hscan|].
  split; [rewrite Hentry; unfold r1; by rewrite Hcall|].
  split; [exact Hlog|exact He].
Qed.

Lemma trailing_whitespace_repeated_counter_returns_stored_witness :
  let r1 := TrailingWhitespace.trailing_whitespace Py2 (Examples.at_tick 1)
              Examples.buffer1 Examples.fresh_state in
  let r2 := TrailingWhitespace.trailing_whitespace Py2 (Examples.at_tick 1)
              Examples2.buffer1_edited r1.2 in
  r1.1 = (TrailingWhitespace.scan Py2 (has_bindeval (Examples.at_tick 1))
            (VInt 1) (Examples.mkbuf 1 [Decoded "x "])
            (buffer_log Examples.fresh_state)).1
  /\ r2.1 = r1.1
  /\ buffer_log r2.2 = buffer_log r1.2
  /\ entry_of r2.2 (VInt 1) = entry_of r1.2 (VInt 1).
Proof.
  apply (trailing_whitespace_repeated_counter_returns_stored Py2
           (Examples.at_tick 1) (Examples.at_tick 1)
           Examples.buffer1 Examples2.buffer1_edited Examples.fresh_state
           (VInt 1) (Examples.mkbuf 1 [Decoded "x "])).
  - reflexivity.
  - reflexivity.
  - discriminate.
  - constructor; [exact I|constructor].
  - discriminate.
  - reflexivity.
  - reflexivity.
Defined.

(** ** window_cached, further *)

Lemma window_cached_counts {K W : Type} (func : K -> W -> result fragment * W)
    (cache : gmap value fragment) (segment_info : gmap string value)
    (kwargs : K) (n : nat) (w : W) :
  (window_cached (counting func) cache segment_info kwargs (n, w)).2.1 =
    if is_focused segment_info then S n else n.
Proof.
  unfold window_cached, is_focused.
  destruct (segment_info !! "window_id") as [wid|]; [|reflexivity].
  destruct (segment_info !! "mode") as [m|]; [|reflexivity].
  destruct (decide (m = VStr "nc")) as [->|Hne].
  - by rewrite bool_decide_eq_true_2.
  - rewrite bool_decide_eq_false_2 by exact Hne.
    unfold counting. simpl. destruct (func kwargs w) as [[r|e] w']; reflexivity.
Qed.

(** X11. Over any sequence of calls the wrapped function is invoked once for
    each focused call (a context with a [window_id] and a mode other than
    ['nc']) and never for another call. *)
Theorem window_cached_invokes_once_per_focused_call
    {K W : Type} (func : K -> W -> result fragment * W)
    (calls : list (gmap string value * K)) :
  forall (cache : gmap value fragment) (n : nat) (w : W),
    (window_cached_calls (counting func) cache calls (n, w)).2.1 =
      (n + length (List.filter is_focused (map fst calls)))%nat.
Proof.
  induction calls as [|[si kw] rest IH]; intros cache n w.
  - simpl. lia.
  - simpl.
    pose proof (window_cached_counts func cache si kw n w) as Hstep.
    destruct (window_cached (counting func) cache si kw (n, w))
      as [[r cache'] [n' w']].
    simpl in Hstep. rewrite IH, Hstep.
    destruct (is_focused si); simpl; lia.
Qed.

(** X12. A call that raises, be it for a missing key or because the wrapped
    function raises, leaves the cache as it was. *)
Theorem window_cached_raise_keeps_cache
    {K W : Type} (func : K -> W -> result fragment * W)
    (cache : gmap value fragment) (segment_info : gmap string value)
    (kwargs : K) (w : W) (e : exn) :
  (window_cached func cache segment_info kwargs w).1.1 = Raise e ->
  (window_cached func cache segment_info kwargs w).1.2 = cache.
Proof.
  unfold window_cached.
  destruct (segment_info !! "window_id") as [wid|]; [|reflexivity].
  destruct (segment_info !! "mode") as [m|]; [|reflexivity].
  destruct (decide (m = VStr "nc")); [reflexivity|].
  destruct (func kwargs w) as [[r|e'] w']; [discriminate|reflexivity].
Qed.

Lemma window_cached_raise_keeps_cache_witness :
  (window_cached Examples.echo (<[VInt 11 := Text "A"]> ∅)
     (<["mode" := VStr "n"]> ∅) "B" ()).1.2 = <[VInt 11 := Text "A"]> ∅.
Proof.
  apply (window_cached_raise_keeps_cache Examples.echo
           (<[VInt 11 := Text "A"]> ∅) (<["mode" := VStr "n"]> ∅) "B" ()
           KeyError).
  reflexivity.
Defined.

(** ** mode, further *)

(** X13. In a context that is not current the segment returns [None]
    whatever the override; a mode that neither the override nor the default
    table has, such as the ['tab'] that the listers write, raises
    [KeyError]. *)
Theorem mode_nc_and_unknown
    (segment_info : gmap string value) (override : option (gmap string string)) :
  (segment_info !! "mode" = Some (VStr "nc") ->
   mode segment_info override = Ok Absent)
  /\ (forall m : string,
        segment_info !! "mode" = Some (VStr m) ->
        m <> "nc" ->
        vim_modes !! m = None ->
        (forall o, override = Some o -> o !! m = None) ->
        mode segment_info override = Raise KeyError)
  /\ vim_modes !! "tab" = None.
Proof.
  split; [|split].
  - intros Hm. unfold mode. rewrite Hm.
    destruct (decide (VStr "nc" = VStr "nc")); [reflexivity|congruence].
  - intros m Hm Hnc Hnone Ho. unfold mode. rewrite Hm.
    destruct (decide (VStr m = VStr "nc")) as [[= ->]|_]; [congruence|].
    assert (Hd : Text <$> getitem vim_modes (VStr m) = Raise KeyError).
    { unfold getitem. rewrite Hnone. reflexivity. }
    destruct override as [o|]; [|exact Hd].
    destruct (decide (o = ∅)); [exact Hd|].
    unfold getitem at 1. rewrite (Ho o eq_refl). exact Hd.
  - vm_compute. reflexivity.
Qed.

(** ** line_percent, further *)

(** X14. [line_percent] divides by the number of lines of the buffer object:
    for one without lines it raises [ZeroDivisionError]. With and without
    [gradient] it raises the same exception or shows the same text; the
    gradient adds the level to the text. *)
Theorem line_percent_gradient_agrees
    (v : PyVersion) (segment_info : gmap string value) :
  (forall (window : window) (buffer : buffer),
     segment_info !! "window" = Some (VWindow window) ->
     segment_info !! "buffer" = Some (VBuffer buffer) ->
     buf_lines buffer = [] ->
     line_percent v segment_info false = Raise ZeroDivisionError
     /\ line_percent v segment_info true = Raise ZeroDivisionError)
  /\ match line_percent v segment_info false with
     | Ok (Text s) =>
         exists p : float,
           line_percent v segment_info true =
             Ok (Parts [{| contents := s;
                           highlight_group :=
                             ["line_percent_gradient"; "line_percent"];
                           divider_highlight_group := None;
                           gradient_level := Some p |}])
     | Ok _ => False
     | Raise e => line_percent v segment_info true = Raise e
     end.
Proof.
  split.
  - intros window buffer Hw Hb Hempty. unfold line_percent.
    rewrite Hw, Hb, Hempty. split; reflexivity.
  - unfold line_percent.
    destruct (segment_info !! "window") as [[]|]; try reflexivity.
    destruct (segment_info !! "buffer") as [[]|]; try reflexivity.
    destruct (Z.of_nat (length (buf_lines b)) =? 0); [reflexivity|].
    destruct (Py.int_round v _) as [n|e]; simpl; [|reflexivity].
    eexists. reflexivity.
Qed.

(** ** visual_range *)

(** X15. Outside the three visual modes [visual_range] returns [None]
    without asking for positions; inside them the result does not depend on
    the direction of the selection: exchanging the position of the cursor
    and the other end of the selection gives the same text. *)
Theorem visual_range_direction
    (f : VimFuncs) (segment_info : gmap string value) :
  visual_range (swap_ends f) segment_info = visual_range f segment_info
  /\ (forall m : value,
        segment_info !! "mode" = Some m ->
        m ∉ [VStr "v"; VStr "V"; VStr "^V"] ->
        forall g : VimFuncs, visual_range g segment_info = Ok Absent).
Proof.
  split.
  - unfold visual_range, swap_ends. simpl.
    destruct (segment_info !! "mode") as [m|]; [|reflexivity].
    destruct (negb _); [reflexivity|].
    destruct (getpos f "v") as [[[b1 l1] c1] o1].
    destruct (getpos f ".") as [[[b2 l2] c2] o2]. simpl.
    replace (Z.abs (l1 - l2)) with (Z.abs (l2 - l1))
      by (rewrite <- Z.abs_opp; f_equal; lia).
    replace (Z.abs (virtcol f (l1, c1, o1) - virtcol f (l2, c2, o2)))
      with (Z.abs (virtcol f (l2, c2, o2) - virtcol f (l1, c1, o1)))
      by (rewrite <- Z.abs_opp; f_equal; lia).
    reflexivity.
  - intros m Hm Hnot g. unfold visual_range. rewrite Hm.
    by rewrite bool_decide_eq_false_2.
Qed.

(** ** modified_buffers *)

Lemma filter_nil_iff {A : Type} (p : A -> bool) (l : list A) :
  List.filter p l = [] <-> (forall x : A, In x l -> p x = false).
Proof.
  induction l as [|a l IH]; simpl.
  - split; [intros _ x []|reflexivity].
  - destruct (p a) eqn:Ha.
    + split; [discriminate|]. intros H. rewrite (H a) in Ha by auto. discriminate.
    + rewrite IH. split.
      * intros H x [<-|Hx]; auto.
      * intros H x Hx. apply H. auto.
Qed.

(** X16. [modified_buffers] returns [None] exactly when no buffer from 1 to
    [bufnr('$')] is modified, a buffer whose [&modified] is empty or 0
    counting as not modified; otherwise it returns a text that starts with
    [text]. *)
Theorem modified_buffers_none_iff (f : VimFuncs) (text join_str : string) :
  (modified_buffers f text join_str = Absent
   <-> forall n : Z, 1 <= n <= bufnr_last f -> is_modified f n = false)
  /\ (modified_buffers f text join_str = Absent
      \/ exists rest : string,
           modified_buffers f text join_str = Text (String.append text rest)).
Proof.
  unfold modified_buffers, buffer_mod. split.
  - set (range := map Z.of_nat (seq 1 (Z.to_nat (bufnr_last f)))).
    assert (Hrange : forall n : Z, In n range <-> 1 <= n <= bufnr_last f).
    { intros n. unfold range. rewrite in_map_iff. split.
      - intros (i & <- & Hi). apply in_seq in Hi. lia.
      - intros Hn. exists (Z.to_nat n). split; [lia|]. apply in_seq. lia. }
    destruct (List.filter (is_modified f) range) as [|a l] eqn:Hf; simpl.
    + split; [|reflexivity]. intros _ n Hn.
      apply (proj1 (filter_nil_iff _ _) Hf). by apply Hrange.
    + split; [discriminate|].
      intros H. exfalso.
      assert (Ha : In a (List.filter (is_modified f) range))
        by (rewrite Hf; left; reflexivity).
      apply filter_In in Ha as [Hin Hmod].
      apply Hrange in Hin. rewrite (H a Hin) in Hmod. discriminate.
  - destruct (map Py.str_of_int _) as [|s l]; [left; reflexivity|].
    right. eexists. reflexivity.
Qed.

(** ** file_name, further *)

Lemma chars_append (a b : string) :
  Py.chars (String.append a b) = Py.chars a ++ Py.chars b.
Proof. induction a as [|c a IH]; simpl; [reflexivity|]. by rewrite <- IH. Qed.

Lemma after_last_slash_none (q acc : list ascii) :
  "/"%char ∉ q -> OsPath.after_last_slash acc q = rev acc ++ q.
Proof.
  revert acc. induction q as [|c q IH]; intros acc Hq; simpl.
  - by rewrite app_nil_r.
  - apply not_elem_of_cons in Hq as [Hc Hq].
    destruct (Ascii.eqb_spec c "/"%char) as [->|_]; [congruence|].
    rewrite (IH _ Hq). simpl. by rewrite <- app_assoc.
Qed.

Lemma after_last_slash_app (p q acc : list ascii) :
  "/"%char ∉ q ->
  OsPath.after_last_slash acc (p ++ "/"%char :: q) = q.
Proof.
  intros Hq. revert acc. induction p as [|c p IH]; intros acc; simpl.
  - by rewrite (after_last_slash_none q [] Hq).
  - destruct (Ascii.eqb c "/"%char); apply IH.
Qed.

(** X17. For a buffer whose name is a path, [file_name] returns the decoded
    last component: what follows the last slash, or the whole name when it
    has no slash. The module state is untouched. *)
Theorem file_name_last_component
    (buffer_name : value -> result (option string))
    (decode : string -> result string)
    (segment_info : gmap string value) (b : value)
    (display_no_file : bool) (no_file_text : string) (st : state)
    (dir file : string) :
  segment_info !! "buffer" = Some b ->
  "/"%char ∉ Py.chars file ->
  (buffer_name b = Ok (Some (String.append dir (String "/" file))) ->
   file_name buffer_name decode segment_info display_no_file no_file_text st =
     (Text <$> decode file, st))
  /\ (file <> EmptyString ->
      buffer_name b = Ok (Some file) ->
      file_name buffer_name decode segment_info display_no_file no_file_text st =
        (Text <$> decode file, st)).
Proof.
  intros Hb Hfile. split.
  - intros Hname. unfold file_name. rewrite Hb, Hname.
    assert (Hbase : OsPath.basename (String.append dir (String "/" file)) = file).
    { unfold OsPath.basename. rewrite chars_append. simpl.
      rewrite (after_last_slash_app _ _ _ Hfile).
      apply string_of_list_ascii_of_string. }
    destruct (String.append dir (String "/" file)) as [|c s] eqn:E.
    + destruct dir; discriminate.
    + by rewrite Hbase.
  - intros Hne Hname. unfold file_name. rewrite Hb, Hname.
    destruct file as [|c s]; [congruence|].
    unfold OsPath.basename. rewrite (after_last_slash_none _ [] Hfile). simpl.
    by rewrite string_of_list_ascii_of_string.
Qed.

Lemma file_name_last_component_witness :
  (Ok (Some "/a/b/c.txt") = Ok (Some (String.append "/a/b" (String "/" "c.txt"))) ->
   file_name (fun _ => Ok (Some "/a/b/c.txt")) (fun s => Ok s)
     Examples.buffer1 false "[No file]" Examples.fresh_state =
     (Text <$> Ok "c.txt", Examples.fresh_state))
  /\ ("c.txt" <> EmptyString ->
      Ok (Some "/a/b/c.txt") = Ok (Some "c.txt") ->
      file_name (fun _ => Ok (Some "/a/b/c.txt")) (fun s => Ok s)
        Examples.buffer1 false "[No file]" Examples.fresh_state =
        (Text <$> Ok "c.txt", Examples.fresh_state)).
Proof.
  apply (file_name_last_component (fun _ => Ok (Some "/a/b/c.txt"))
           (fun s => Ok s) Examples.buffer1
           (VBuffer (Examples.mkbuf 1 [Decoded "x "])) false "[No file]"
           Examples.fresh_state "/a/b" "c.txt").
  - reflexivity.
  - simpl. rewrite !not_elem_of_cons.
    repeat split; try discriminate. apply not_elem_of_nil.
Defined.

(** ** trailing_whitespace: when nothing is reported *)

(** X18. For a buffer with at least one line, on none of whose lines the
    test raises (as when every line decodes), the scan returns [None]
    exactly when no line is flagged; otherwise it returns one dictionary. *)
Theorem scan_none_iff_no_line_flagged
    (v : PyVersion) (bindeval : bool) (bufnr : value)
    (buf : buffer) (log : list event) :
  buf_lines buf <> [] ->
  Forall (test_returns v bindeval) (buf_lines buf) ->
  ((TrailingWhitespace.scan v bindeval bufnr buf log).1 = Ok Absent
   <-> Forall (fun l => TrailingWhitespace.has_trailing_ws v bindeval l = Ok false)
         (buf_lines buf))
  /\ ((TrailingWhitespace.scan v bindeval bufnr buf log).1 = Ok Absent
      \/ exists p : SegmentPart,
           (TrailingWhitespace.scan v bindeval bufnr buf log).1 = Ok (Parts [p])).
Proof.
  intros Hne Hret.
  destruct (first_flagged_or_none v bindeval (buf_lines buf) Hret)
    as [Hnone|(pre & post & l & Hlines & Hpre & Hl)].
  - rewrite (scan_none v bindeval bufnr buf log Hne Hnone). simpl.
    split; [split; auto|left; reflexivity].
  - rewrite (scan_first v bindeval bufnr buf log pre post l Hlines Hpre Hl).
    simpl. split; [|right; eexists; reflexivity].
    split; [discriminate|]. intros Hall. rewrite Hlines in Hall.
    apply Forall_app in Hall as [_ Hall]. inversion Hall; subst. congruence.
Qed.

Lemma scan_none_iff_no_line_flagged_witness :
  ((TrailingWhitespace.scan Py2 true (VInt 1) Examples.four_lines []).1 = Ok Absent
   <-> Forall (fun l => TrailingWhitespace.has_trailing_ws Py2 true l = Ok false)
         (buf_lines Examples.four_lines))
  /\ ((TrailingWhitespace.scan Py2 true (VInt 1) Examples.four_lines []).1 = Ok Absent
      \/ exists p : SegmentPart,
           (TrailingWhitespace.scan Py2 true (VInt 1) Examples.four_lines []).1 =
             Ok (Parts [p])).
Proof.
  apply (scan_none_iff_no_line_flagged Py2 true (VInt 1) Examples.four_lines []).
  - discriminate.
  - repeat (constructor; [exact I|]). constructor.
Defined.

(** If a byte string occurs in another, each of its bytes is one of the
    other's. *)
Lemma starts_with_bytes (x s : list ascii) :
  Py.starts_with x s = true -> forall c : ascii, In c x -> In c s.
Proof.
  revert s. induction x as [|a x IH]; intros s H c Hc; [destruct Hc|].
  destruct s as [|b s]; [discriminate|]. simpl in H.
  apply andb_true_iff in H as [Hab H]. apply Ascii.eqb_eq in Hab as ->.
  destruct Hc as [<-|Hc]; [by left|]. right. by apply (IH s).
Qed.

Lemma occurs_in_bytes (x s : list ascii) :
  Py.occurs_in x s = true -> forall c : ascii, In c x -> In c s.
Proof.
  induction s as [|b s IH]; simpl; intros H c Hc.
  - rewrite orb_false_r in H. exact (starts_with_bytes x [] H c Hc).
  - apply orb_true_iff in H as [H|H].
    + exact (starts_with_bytes x (b :: s) H c Hc).
    + right. exact (IH H c Hc).
Qed.

(** X19. How the test comes out, branch by branch. Under Python 2 a line
    that decodes is flagged exactly when it is not empty and its last
    character is a space or a tab. For a line that does not decode: with
    [bindeval] the whole last item of the List is looked for in [bws], so
    that a line holding any byte other than space and tab is not flagged,
    whatever its last byte; without [bindeval] under Python 3 the test
    raises [TypeError] for every answer that is not empty, and under
    Python 2 it tests the last character of the answer. *)
Theorem has_trailing_ws_by_branch
    (bindeval : bool) (line : string)
    (items : list string) (item answer : string) (c : ascii) :
  (TrailingWhitespace.has_trailing_ws Py2 bindeval (Decoded line) = Ok true
   <-> exists c : ascii,
         Py.last_char line = Some c
         /\ (c = " "%char \/ c = Ascii.ascii_of_nat 9))
  /\ (forall (v : PyVersion) (b : ascii),
        In b (Py.chars item) -> b <> " "%char -> b <> Ascii.ascii_of_nat 9 ->
        TrailingWhitespace.has_trailing_ws v true
          (Undecodable (items ++ [item]) answer) = Ok false)
  /\ (Py.last_char answer = Some c ->
      TrailingWhitespace.has_trailing_ws Py3 false (Undecodable items answer)
        = Raise TypeError
      /\ TrailingWhitespace.has_trailing_ws Py2 false (Undecodable items answer)
         = Ok (Py.char_in c TrailingWhitespace.bws)).
Proof.
  split; [apply has_trailing_ws_python2|]. split.
  - intros v b Hb Hspace Htab. unfold TrailingWhitespace.has_trailing_ws.
    rewrite last_snoc. f_equal.
    destruct (Py.bytes_in item TrailingWhitespace.bws) eqn:E; [|reflexivity].
    exfalso. apply (occurs_in_bytes _ _ E) in Hb.
    simpl in Hb. destruct Hb as [<-|[<-|[]]]; congruence.
  - intros Hc. unfold TrailingWhitespace.has_trailing_ws. rewrite Hc.
    split; reflexivity.
Qed.

Lemma has_trailing_ws_by_branch_witness :
  TrailingWhitespace.has_trailing_ws Py3 true Examples.undecodable_line =
    Ok false
  /\ TrailingWhitespace.has_trailing_ws Py3 false Examples.undecodable_line =
       Raise TypeError
  /\ TrailingWhitespace.has_trailing_ws Py2 false Examples.undecodable_line =
       Ok true.
Proof.
  destruct (has_trailing_ws_by_branch true EmptyString []
              (String (Ascii.ascii_of_nat 255) "a ") "<ff>a " " "%char)
    as (_ & Hlist & _).
  destruct (has_trailing_ws_by_branch true EmptyString
              [String (Ascii.ascii_of_nat 255) "a "]
              (String (Ascii.ascii_of_nat 255) "a ") "<ff>a " " "%char)
    as (_ & _ & Heval).
  split; [|exact (Heval eq_refl)].
  apply (Hlist Py3 "a"%char).
  - right. left. reflexivity.
  - discriminate.
  - discriminate.
Defined.

(** X20. The scan of a buffer that has at least one line, on none of whose
    lines the test raises (as when every line decodes), returns without an
    exception. When line [k] (counted from 0) is flagged and no line before
    it is, the scan returns the fragment whose contents is the number
    [k + 1], and the accesses it made to the buffer are its length and the
    lines 0 to [k], no line after. When no line is flagged it returns
    [None], having read every line. *)
Theorem scan_reports_first_flagged_line
    (v : PyVersion) (bindeval : bool) (bufnr : value)
    (buf : buffer) (log : list event) :
  buf_lines buf <> [] ->
  Forall (test_returns v bindeval) (buf_lines buf) ->
  (exists (ret : fragment) (log' : list event),
     TrailingWhitespace.scan v bindeval bufnr buf log = (Ok ret, log'))
  /\ (forall (k : nat) (l : line_read),
        buf_lines buf !! k = Some l ->
        TrailingWhitespace.has_trailing_ws v bindeval l = Ok true ->
        (forall (j : nat) (l' : line_read),
           (j < k)%nat -> buf_lines buf !! j = Some l' ->
           TrailingWhitespace.has_trailing_ws v bindeval l' = Ok false) ->
        TrailingWhitespace.scan v bindeval bufnr buf log =
          (Ok (Parts [{| contents := Py.str_of_int (Z.of_nat k + 1);
                         highlight_group := ["trailing_whitespace"; "warning"];
                         divider_highlight_group := None;
                         gradient_level := None |}]),
           log ++ EvLen bufnr :: map (EvItem bufnr) (seq 0 (S k))))
  /\ (Forall (fun l => TrailingWhitespace.has_trailing_ws v bindeval l = Ok false)
        (buf_lines buf) ->
      TrailingWhitespace.scan v bindeval bufnr buf log =
        (Ok Absent,
         log ++ EvLen bufnr
             :: map (EvItem bufnr) (seq 0 (length (buf_lines buf))))).
Proof.
  intros Hne Hret.
  split.
  { destruct (scan_returns v bindeval bufnr buf log Hne Hret)
      as (ret & log' & H & _).
    by exists ret, log'. }
  split; [|by apply scan_none].
  intros k l Hk Hl Hbefore.
  assert (Hlen : length (take k (buf_lines buf)) = k).
  { apply length_take_le. apply lookup_lt_Some in Hk. lia. }
  pose proof (scan_first v bindeval bufnr buf log (take k (buf_lines buf))
                (drop (S k) (buf_lines buf)) l) as Hscan.
  rewrite Hlen in Hscan. apply Hscan.
  - symmetry. by apply take_drop_middle.
  - apply Forall_lookup. intros j l' Hj.
    apply lookup_take_Some in Hj as [Hj Hlt]. by eapply Hbefore.
  - exact Hl.
Qed.

Lemma scan_reports_first_flagged_line_witness :
  (exists (ret : fragment) (log' : list event),
     TrailingWhitespace.scan Py2 true (VInt 1) Examples.four_lines [] =
       (Ok ret, log'))
  /\ TrailingWhitespace.scan Py2 true (VInt 1) Examples.four_lines [] =
       (Ok (Parts [{| contents := "3";
                      highlight_group := ["trailing_whitespace"; "warning"];
                      divider_highlight_group := None;
                      gradient_level := None |}]),
        [EvLen (VInt 1); EvItem (VInt 1) 0; EvItem (VInt 1) 1;
         EvItem (VInt 1) 2]).
Proof.
  destruct (scan_reports_first_flagged_line Py2 true (VInt 1)
              Examples.four_lines []) as (H1 & H3 & _).
  { discriminate. }
  { repeat (constructor; [exact I|]). constructor. }
  split; [exact H1|].
  apply (H3 2%nat (Decoded "x ")).
  - reflexivity.
  - reflexivity.
  - intros j l' Hj Hl'.
    destruct j as [|[|j]]; [| |lia]; injection Hl' as <-; reflexivity.
Defined.


(** ** The further segments on a concrete editor *)

Example visual_range_rows :
  visual_range Examples2.funcs (<["mode" := VStr "v"]> ∅) = Ok (Text "3 rows")
  /\ visual_range Examples2.funcs (<["mode" := VStr "^V"]> ∅) = Ok (Text "3 × 4")
  /\ visual_range Examples2.funcs (<["mode" := VStr "n"]> ∅) = Ok Absent.
Proof. repeat split. Qed.

Example modified_buffers_two_of_five :
  modified_buffers Examples2.funcs "+ " "," = Text "+ 2,4".
Proof. reflexivity. Qed.
